(** * 2D-3D-modelling: the SolidWorks macros, the dimension-extractor page,
      the Gemini response validation and the generator of the specification

    The definitions come first, one module per part:
    - [SolidWorks]: the VBA macros of the repository as the sequence of
      SolidWorks API calls they issue, and their reading as a macro program
      (begin_sketch, create_rectangle, end_sketch, extrude, cut);
    - [Schema]: the [DimensionResult] interface declared by the frontend;
    - [Js]: JavaScript values, as far as the code looks at them;
    - [Extractor]: the [DimensionExtractor] React component as a state record,
      one list of statements per handler, and the page as a transition
      system;
    - [Gemini]: the response validation of [getAnalysisRecommendation] and
      [getAnalysisRecommendationWithImage] over parsed JSON;
    - [Generator]: the macro code generator, which is not among the
      sources, as the specification describes it;
    - [GeminiOutcomes]: when the two Gemini functions return and what they
      throw;
    - [ExtractorUi]: the sessions the rendered [DimensionExtractor] page
      allows;
    - [AppComponent]: the [App] component of App.tsx, the page before the
      script generation was added;
    - [Router] and [Recommender]: the routes of the application and the
      [AIRecommendation] component, which calls the Gemini functions.
    The properties follow, in [GeneratorFacts], [SolidWorksFacts],
    [SchemaFacts], [ExtractorFacts], [GeminiFacts], [GeminiOutcomeFacts],
    [ExtractorUiFacts], [AppComponentFacts] and [RecommenderFacts]. *)

From Stdlib Require Import Bool List String Ascii ZArith QArith Qabs Lia.
Import ListNotations.

Set Warnings "-register-all".
Local Open Scope string_scope.

(* ================================================================== *)
(** * SolidWorks macros *)
(* ================================================================== *)

Module SolidWorks.

Local Open Scope Q_scope.

(** The 23 positional arguments of [FeatureManager.FeatureExtrusion2] and
    [FeatureExtrusion3].  The sixth one, [D1], is the depth of the extrusion
    (the cuboid macro passes 40 there under the comment "Extrude to 40mm
    depth", the cube macro passes [cubeSize]). *)
Record ExtrusionArgs := mkExtrusion {
  Sd : bool; Flip : bool; Dir : bool;
  T1 : Z; T2 : Z;
  D1 : Q; D2 : Q;
  Dchk1 : bool; Dchk2 : bool; Ddir1 : bool; Ddir2 : bool;
  Dang1 : Q; Dang2 : Q;
  OffsetReverse1 : bool; OffsetReverse2 : bool;
  TranslateSurface1 : bool; TranslateSurface2 : bool;
  Merge : bool; UseFeatScope : bool; UseAutoSelect : bool;
  T0 : Z; StartOffset : Q; FlipStartOffset : bool
}.

(** The API calls the macros issue, in the order of the source.  Object
    plumbing ([Set x = ...], [Set x = Nothing]) is not a modelling call and
    is left out, as are the [Nothing] callout of [SelectByID2] and the
    [vbInformation] of [MsgBox]. *)
Inductive Call :=
| NewPart
| NewDocument (template : string) (paperSize : Z) (width height : Q)
| SelectByID2 (name type : string) (x y z : Q) (append : bool) (mark : Z)
              (selectOption : Z)
| ClearSelection2 (all : bool)
| InsertSketch (updateEditRebuild : bool)
| InsertSketch2 (updateEditRebuild : bool)
| CreateLine (x1 y1 z1 x2 y2 z2 : Q)
| CreateCenterRectangle (xc yc zc x y z : Q)
| FeatureExtrusion2 (a : ExtrusionArgs)
| FeatureExtrusion3 (a : ExtrusionArgs)
| ViewZoomtofit2
| MsgBox (prompt title : string).

(** [swEndConditions_e.swEndCondBlind] and
    [swSelectOption_e.swSelectOptionDefault]. *)
Definition swEndCondBlind : Z := 0.
Definition swSelectOptionDefault : Z := 0.

(** ** The four macros *)

(** unnamed/part_000, [Sub CreateModelFromJSON]: one sketch with eight
    lines, one extrusion. *)
Module Nested.
Definition CreateModelFromJSON : list Call :=
  [ NewPart;
    SelectByID2 "Front Plane" "PLANE" 0 0 0 false 0 0;
    InsertSketch true;
    CreateLine 0.0 0.0 0 40.0 0.0 0;
    CreateLine 40.0 0.0 0 40.0 60.0 0;
    CreateLine 40.0 60.0 0 0.0 60.0 0;
    CreateLine 0.0 60.0 0 0.0 0.0 0;
    CreateLine 5.0 15.0 0 35.0 15.0 0;
    CreateLine 35.0 15.0 0 35.0 45.0 0;
    CreateLine 35.0 45.0 0 5.0 45.0 0;
    CreateLine 5.0 45.0 0 5.0 15.0 0;
    InsertSketch2 true;
    FeatureExtrusion2
      (mkExtrusion true false false 0 0 100.0 0.01
                   false false false false 0 0
                   false false false false true true true
                   0 0 false);
    ViewZoomtofit2;
    MsgBox "Model created successfully!" "Done" ].
End Nested.

(** stacking/vba_script.vb, [Sub CreateModelFromJSON]: a centre rectangle
    extruded, then a second sketch of four lines extruded.  The variables
    [width], [height] and [depth] are assigned 0.1 and never read. *)
Module Stacking.
Definition width : Q := 0.1.
Definition height : Q := 0.1.
Definition depth : Q := 0.1.

Definition CreateModelFromJSON : list Call :=
  [ NewPart;
    SelectByID2 "Front Plane" "PLANE" 0 0 0 false 0 0;
    InsertSketch true;
    CreateCenterRectangle 0.0 0.0 0.0 0.05 0.05 0.0;
    InsertSketch2 true;
    FeatureExtrusion2
      (mkExtrusion true false false 0 0 0.1 0.01
                   false false false false 0 0
                   false false false false true true true
                   0 0 false);
    SelectByID2 "Front Plane" "PLANE" 0 0 0 false 0 0;
    InsertSketch true;
    CreateLine 0.0 0.0 0 0.1 0.0 0;
    CreateLine 0.1 0.0 0 0.1 0.1 0;
    CreateLine 0.1 0.1 0 0.0 0.1 0;
    CreateLine 0.0 0.1 0 0.0 0.0 0;
    InsertSketch2 true;
    FeatureExtrusion2
      (mkExtrusion true false false 0 0 0.1 0.01
                   false false false false 0 0
                   false false false false true true true
                   0 0 false);
    ViewZoomtofit2;
    MsgBox "Model created successfully!" "Done" ].
End Stacking.

(** cv_scripts/Basic_Cube_VBA, [Sub CreateSimpleCube]. *)
Module BasicCube.
Definition cubeSize : Q := 0.1.

Definition CreateSimpleCube : list Call :=
  [ NewPart;
    InsertSketch true;
    CreateCenterRectangle 0 0 0 (cubeSize / 2) (cubeSize / 2) 0;
    InsertSketch2 true;
    FeatureExtrusion2
      (mkExtrusion true false false 0 0 cubeSize 0.01
                   false false false false 0 0
                   false false false false true true true
                   0 0 false);
    ViewZoomtofit2;
    MsgBox "Cube created successfully!" "Done" ].
End BasicCube.

(** [Sub CreateCuboid], the cuboid macro.  The part template is read from
    the user preferences, so it is an argument.  [BoolStatus],
    [vSketchLines] and [swFeature] are assigned and never read. *)
Module Cuboid.
Definition CreateCuboid (defaultTemplate : string) : list Call :=
  [ NewDocument defaultTemplate 0 0 0;
    SelectByID2 "Front Plane" "PLANE" 0 0 0 false 0 swSelectOptionDefault;
    InsertSketch true;
    CreateCenterRectangle 0 0 0 50 30 0;
    ClearSelection2 true;
    InsertSketch true;
    SelectByID2 "Sketch1" "SKETCH" 0 0 0 false 0 swSelectOptionDefault;
    FeatureExtrusion3
      (mkExtrusion true false false swEndCondBlind swEndCondBlind 40 0
                   false false false false 0 0
                   false false false false true true true
                   swEndCondBlind 0 false);
    ViewZoomtofit2;
    MsgBox "Cuboid created successfully: 100mm × 60mm × 40mm" "Success" ].
End Cuboid.

(** ** Reading a macro as a macro program *)

(** What a sketch is opened on: whatever is selected when the sketch is
    inserted. *)
Inductive SketchTarget :=
| NoSelection
| OnPlane (name : string)
| OnFace (name : string)
| OnOther (name type : string).

(** The operations of a macro program.  [sketch_line] is a line that is not
    part of a rectangle; [cut] belongs to the vocabulary, but no macro of
    the repository calls a cut feature. *)
Inductive MacroOperation :=
| begin_sketch (target : SketchTarget)
| create_rectangle (x y w h : Q)
| sketch_line (x1 y1 x2 y2 : Q)
| end_sketch
| extrude (depth : Q)
| cut (depth : Q).

Definition target_of (sel : option (string * string)) : SketchTarget :=
  match sel with
  | None => NoSelection
  | Some (name, type) =>
      if String.eqb type "PLANE" then OnPlane name
      else if String.eqb type "FACE" then OnFace name
      else OnOther name type
  end.

(** Call by call.  [InsertSketch] and [InsertSketch2] toggle sketch mode:
    the macros use them under "create sketch" when no sketch is open and
    under "Exit sketch" when one is.  A centre rectangle with centre
    [(xc, yc)] and corner [(x, y)] spans twice the half dimensions (the
    cuboid macro: "Half dimensions (50=100/2, 30=60/2)"); its position is
    its lower left corner. *)
Fixpoint primitive_ops (sel : option (string * string)) (open : bool)
         (cs : list Call) : list MacroOperation :=
  match cs with
  | [] => []
  | c :: cs' =>
      match c with
      | SelectByID2 name type _ _ _ _ _ _ =>
          primitive_ops (Some (name, type)) open cs'
      | ClearSelection2 _ => primitive_ops None open cs'
      | InsertSketch _ | InsertSketch2 _ =>
          if open then end_sketch :: primitive_ops sel false cs'
          else begin_sketch (target_of sel) :: primitive_ops sel true cs'
      | CreateLine x1 y1 _ x2 y2 _ =>
          sketch_line (Qred x1) (Qred y1) (Qred x2) (Qred y2)
            :: primitive_ops sel open cs'
      | CreateCenterRectangle xc yc _ x y _ =>
          let hw := Qabs (x - xc) in
          let hh := Qabs (y - yc) in
          create_rectangle (Qred (xc - hw)) (Qred (yc - hh))
                           (Qred (2 * hw)) (Qred (2 * hh))
            :: primitive_ops sel open cs'
      | FeatureExtrusion2 a | FeatureExtrusion3 a =>
          extrude (Qred (D1 a)) :: primitive_ops sel open cs'
      | NewPart | NewDocument _ _ _ _ | ViewZoomtofit2 | MsgBox _ _ =>
          primitive_ops sel open cs'
      end
  end.

(** Four lines (x0,y0)-(x1,y0)-(x1,y1)-(x0,y1)-(x0,y0) are one rectangle
    at position (x0,y0) of width x1-x0 and height y1-y0. *)
Definition closes_rectangle (a b c d : Q * Q * Q * Q) : option MacroOperation :=
  let '(ax1, ay1, ax2, ay2) := a in
  let '(bx1, by1, bx2, by2) := b in
  let '(cx1, cy1, cx2, cy2) := c in
  let '(dx1, dy1, dx2, dy2) := d in
  if Qeq_bool ay1 ay2 && Qeq_bool bx1 ax2 && Qeq_bool by1 ay2
     && Qeq_bool bx2 bx1 && Qeq_bool cx1 bx2 && Qeq_bool cy1 by2
     && Qeq_bool cy2 cy1 && Qeq_bool cx2 ax1 && Qeq_bool dx1 cx2
     && Qeq_bool dy1 cy2 && Qeq_bool dx2 ax1 && Qeq_bool dy2 ay1
  then Some (create_rectangle ax1 ay1 (Qred (ax2 - ax1)) (Qred (by2 - by1)))
  else None.

Fixpoint group_rectangles (ops : list MacroOperation) : list MacroOperation :=
  match ops with
  | sketch_line a1 a2 a3 a4 ::
      ((sketch_line b1 b2 b3 b4 :: sketch_line c1 c2 c3 c4 ::
         sketch_line d1 d2 d3 d4 :: rest) as tail) =>
      match closes_rectangle (a1, a2, a3, a4) (b1, b2, b3, b4)
                             (c1, c2, c3, c4) (d1, d2, d3, d4) with
      | Some r => r :: group_rectangles rest
      | None => sketch_line a1 a2 a3 a4 :: group_rectangles tail
      end
  | op :: tail => op :: group_rectangles tail
  | [] => []
  end.

Definition macro_of (cs : list Call) : list MacroOperation :=
  group_rectangles (primitive_ops None false cs).

(** The macros of the repository.  The template of the cuboid macro does not
    reach its modelling calls. *)
Definition emitted_programs : list (list Call) :=
  [ Nested.CreateModelFromJSON;
    Stacking.CreateModelFromJSON;
    BasicCube.CreateSimpleCube;
    Cuboid.CreateCuboid "" ].

(** ** Vocabulary of the properties *)

Record Rect := mkRect { rx : Q; ry : Q; rw : Q; rh : Q }.

Fixpoint rectangles (ops : list MacroOperation) : list Rect :=
  match ops with
  | [] => []
  | create_rectangle x y w h :: rest => mkRect x y w h :: rectangles rest
  | _ :: rest => rectangles rest
  end.

Fixpoint depths (ops : list MacroOperation) : list Q :=
  match ops with
  | [] => []
  | extrude d :: rest | cut d :: rest => d :: depths rest
  | _ :: rest => depths rest
  end.

Definition offset (outer inner : Rect) : Q * Q :=
  (rx inner - rx outer, ry inner - ry outer).

(** The model of the reference scenario: an outer 40 x 60 rectangle extruded
    to 100 and one inner rectangle [iw] x [ih] at offset (5,15). *)
Definition reference_model (ops : list MacroOperation) (iw ih : Q) : Prop :=
  exists outer inner d,
    rectangles ops = [outer; inner] /\
    rw outer == 40 /\ rh outer == 60 /\
    depths ops = [d] /\ d == 100 /\
    rw inner == iw /\ rh inner == ih /\
    fst (offset outer inner) == 5 /\ snd (offset outer inner) == 15.

Definition is_terminator (op : MacroOperation) : bool :=
  match op with extrude _ | cut _ => true | _ => false end.

(** The base plane: a reference plane, selected before the sketch is
    inserted. *)
Definition is_base_plane (t : SketchTarget) : bool :=
  match t with OnPlane _ => true | _ => false end.

Definition references_parent_face (op : MacroOperation) : bool :=
  match op with begin_sketch (OnFace _) => true | _ => false end.

(** begin_sketch, create_rectangle, end_sketch, extrude, as the first four
    operations. *)
Definition root_order (ops : list MacroOperation) : bool :=
  match ops with
  | begin_sketch _ :: create_rectangle _ _ _ _ :: end_sketch :: extrude _ :: _ =>
      true
  | _ => false
  end.

Definition begins_on_base_plane (ops : list MacroOperation) : bool :=
  match ops with
  | begin_sketch t :: _ => is_base_plane t
  | _ => false
  end.

(** The root sequence: begin_sketch(base plane), create_rectangle,
    end_sketch, extrude. *)
Definition follows_root_sequence (ops : list MacroOperation) : bool :=
  root_order ops && begins_on_base_plane ops.

(** The same order with one or more rectangles in the root sketch. *)
Fixpoint closes_root_sketch (ops : list MacroOperation) : bool :=
  match ops with
  | create_rectangle _ _ _ _ :: rest => closes_root_sketch rest
  | end_sketch :: extrude _ :: _ => true
  | _ => false
  end.

Definition root_order_multi (ops : list MacroOperation) : bool :=
  match ops with
  | begin_sketch _ :: ((create_rectangle _ _ _ _ :: _) as rest) =>
      closes_root_sketch rest
  | _ => false
  end.


(** The features of a program: it is cut after every extrude or cut. *)
Fixpoint features (ops : list MacroOperation) : list (list MacroOperation) :=
  match ops with
  | [] => []
  | op :: rest =>
      if is_terminator op then [op] :: features rest
      else match features rest with
           | [] => [[op]]
           | f :: fs => (op :: f) :: fs
           end
  end.

(** The emission of a child feature as the specification words it: sketch
    on a face of the parent, one rectangle, end of sketch, extrude or cut. *)
Definition child_emission (f : list MacroOperation) : Prop :=
  exists face x y w h last,
    f = [begin_sketch (OnFace face); create_rectangle x y w h; end_sketch; last]
    /\ is_terminator last = true.

Definition children_on_parent_face (ops : list MacroOperation) : Prop :=
  Forall child_emission (tl (features ops)).

Fixpoint extrusion_args (cs : list Call) : list ExtrusionArgs :=
  match cs with
  | [] => []
  | FeatureExtrusion2 a :: rest | FeatureExtrusion3 a :: rest =>
      a :: extrusion_args rest
  | _ :: rest => extrusion_args rest
  end.

Definition is_cut (op : MacroOperation) : bool :=
  match op with cut _ => true | _ => false end.

(** Direction arguments of an extrusion: single ended, not flipped, first
    direction. *)
Definition boss_direction (a : ExtrusionArgs) : bool :=
  Sd a && negb (Flip a) && negb (Dir a).

End SolidWorks.

(* ================================================================== *)
(** * The DimensionResult interface *)
(* ================================================================== *)

Module Schema.

(** The TypeScript types the interface is built from. *)
Inductive ty :=
| TString
| TNumber
| TArray (elem : ty)
| TObject (fields : list (string * ty)).

Definition field_names (t : ty) : list string :=
  match t with
  | TObject fields => map fst fields
  | _ => []
  end.

Fixpoint lookup_field (name : string) (fields : list (string * ty)) : option ty :=
  match fields with
  | [] => None
  | (k, t) :: rest => if String.eqb k name then Some t else lookup_field name rest
  end.

Definition field (name : string) (t : ty) : option ty :=
  match t with
  | TObject fields => lookup_field name fields
  | _ => None
  end.

(** [interface DimensionResult] of Home.tsx (the DimensionExtractor page). *)
Module DimensionExtractorPage.
Definition DimensionResult : ty :=
  TObject
    [ ("root",
       TObject
         [ ("type", TString);
           ("operations",
            TArray
              (TObject
                 [ ("type", TString);
                   ("dimensions",
                    TObject [ ("width", TNumber); ("height", TNumber);
                              ("depth", TNumber) ]);
                   ("position",
                    TObject [ ("x", TNumber); ("y", TNumber);
                              ("z", TNumber) ]) ])) ]) ].
End DimensionExtractorPage.

(** [interface DimensionResult] of App.tsx. *)
Module AppPage.
Definition DimensionResult : ty :=
  TObject
    [ ("root",
       TObject
         [ ("type", TString);
           ("operations",
            TArray
              (TObject
                 [ ("type", TString);
                   ("dimensions",
                    TObject [ ("width", TNumber); ("height", TNumber);
                              ("depth", TNumber) ]);
                   ("position",
                    TObject [ ("x", TNumber); ("y", TNumber);
                              ("z", TNumber) ]) ])) ]) ].
End AppPage.

(** The shape of the output structure: [decl] has a [root] with exactly
    [type] and [operations], whose entries have exactly [type], [dimensions]
    (width, height, depth) and [position] (x, y, z). *)
Definition output_structure (decl : ty) : Prop :=
  exists root entry dims pos,
    field "root" decl = Some root /\
    field_names root = ["type"; "operations"] /\
    field "type" root = Some TString /\
    field "operations" root = Some (TArray entry) /\
    field_names entry = ["type"; "dimensions"; "position"] /\
    field "type" entry = Some TString /\
    field "dimensions" entry = Some dims /\
    dims = TObject [("width", TNumber); ("height", TNumber); ("depth", TNumber)] /\
    field "position" entry = Some pos /\
    pos = TObject [("x", TNumber); ("y", TNumber); ("z", TNumber)].

(** Values of the interface, as the component holds them. *)
Record Dimensions := mkDimensions { width : Q; height : Q; depth : Q }.
Record Position := mkPosition { x : Q; y : Q; z : Q }.
Record Operation := mkOperation {
  op_type : string; dimensions : Dimensions; position : Position }.
Record Root := mkRoot { root_type : string; operations : list Operation }.
Record DimensionResultValue := mkDimensionResult { root : Root }.

End Schema.

(* ================================================================== *)
(** * JavaScript values, as far as the code looks at them *)
(* ================================================================== *)

Module Js.

Local Open Scope Q_scope.

(** The numbers [JSON.parse] and [response.json()] produce: finite ones and,
    on overflow, the infinities.  They never produce NaN. *)
Inductive number :=
| Finite (q : Q)
| PosInfinity
| NegInfinity.

(** An object is the list of its own properties. *)
Inductive value :=
| Undefined
| Null
| Bool (b : bool)
| Num (n : number)
| Str (s : string)
| Arr (items : list value)
| Obj (props : list (string * value)).

Fixpoint lookup (k : string) (props : list (string * value)) : value :=
  match props with
  | [] => Undefined
  | (k', v) :: rest => if String.eqb k' k then v else lookup k rest
  end.

Definition of_nat (n : nat) : value := Num (Finite (inject_Z (Z.of_nat n))).

(** [v.k] for the property names of the validation (none of them is on a
    prototype, [length] apart).  [None] is the TypeError of reading a
    property of null or undefined. *)
Definition get (v : value) (k : string) : option value :=
  match v with
  | Undefined | Null => None
  | Obj props => Some (lookup k props)
  | Arr items =>
      Some (if String.eqb k "length" then of_nat (List.length items) else Undefined)
  | Str s =>
      Some (if String.eqb k "length" then of_nat (String.length s) else Undefined)
  | Bool _ | Num _ => Some Undefined
  end.

(** [v[0]]. *)
Definition first (v : value) : option value :=
  match v with
  | Undefined | Null => None
  | Arr items => Some (nth 0 items Undefined)
  | Obj props => Some (lookup "0" props)
  | Str s =>
      Some (match s with
            | EmptyString => Undefined
            | String c _ => Str (String c EmptyString)
            end)
  | Bool _ | Num _ => Some Undefined
  end.

Definition truthy (v : value) : bool :=
  match v with
  | Undefined | Null => false
  | Bool b => b
  | Num (Finite q) => negb (Qeq_bool q 0)
  | Num _ => true
  | Str s => negb (String.eqb s "")
  | Arr _ | Obj _ => true
  end.

(** [v === 'literal'] and [v === 0]. *)
Definition is_string (v : value) (literal : string) : bool :=
  match v with Str s => String.eqb s literal | _ => false end.

Definition is_zero (v : value) : bool :=
  match v with Num (Finite q) => Qeq_bool q 0 | _ => false end.

(** [typeof v === 'number'], [Array.isArray(v)]. *)
Definition typeof_number (v : value) : bool :=
  match v with Num _ => true | _ => false end.

Definition isArray (v : value) : bool :=
  match v with Arr _ => true | _ => false end.

(** [v < 0] and [v > 1] for a number [v]. *)
Definition lt_0 (v : value) : bool :=
  match v with
  | Num (Finite q) => negb (Qle_bool 0 q)
  | Num NegInfinity => true
  | _ => false
  end.

Definition gt_1 (v : value) : bool :=
  match v with
  | Num (Finite q) => negb (Qle_bool q 1)
  | Num PosInfinity => true
  | _ => false
  end.

(** [list.includes(v)] for a list of strings. *)
Definition includes (list : list string) (v : value) : bool :=
  match v with
  | Str s => existsb (String.eqb s) list
  | _ => false
  end.

End Js.

(* ================================================================== *)
(** * The DimensionExtractor component (Home.tsx) *)
(* ================================================================== *)

Module Extractor.

Import Schema.

(** A [File] is used through its name only. *)
Record File := mkFile { file_name : string }.

Record FileState := mkFiles {
  top_view : option File;
  front_view : option File;
  side_view : option File
}.

Record PreviewState := mkPreviews {
  top_preview : option string;
  front_preview : option string;
  side_preview : option string
}.

(** The [useState] cells of the component.  [error] is declared
    [string | null]; the catch branch of [handleSubmit] stores there what
    the server sent without looking at it, so the cell holds any value. *)
Record State := mkState {
  files : FileState;
  isLoading : bool;
  result : option DimensionResultValue;
  error : Js.value;
  previews : PreviewState;
  vbaScript : option string;
  vbaError : option string;
  isGeneratingVba : bool
}.

Definition initial : State :=
  mkState (mkFiles None None None) false None Js.Null
          (mkPreviews None None None) None None false.

(** The three file inputs, named top_view, front_view and side_view. *)
Inductive InputName := top_view_input | front_view_input | side_view_input.

(** [Object.entries(files)] and [Object.values(files)]: the keys keep the
    order of the initial object. *)
Definition entries (fs : FileState) : list (string * option File) :=
  [ ("top_view", top_view fs); ("front_view", front_view fs);
    ("side_view", side_view fs) ].

Definition values (fs : FileState) : list (option File) := map snd (entries fs).

(** JavaScript truthiness of a [string | null]: null and the empty string
    are falsy. *)
Definition truthy (v : option string) : bool :=
  match v with
  | None => false
  | Some s => negb (String.eqb s "")
  end.

(** [a || b] on strings, [a] possibly undefined. *)
Definition or_else (a : option string) (b : string) : string :=
  match a with
  | Some s => if truthy a then s else b
  | None => b
  end.

(** What [axios.post] settles with.  [response_data_error] is
    [error.response?.data?.error]: whatever the body of the response has
    there, [Js.Undefined] when the chain ends before it.  The cast
    [err as AxiosError<{ error: string }>] declares it a string and checks
    nothing. *)
Record AxiosError := mkAxiosError {
  response_data_error : Js.value;
  message : string
}.

Inductive Outcome (A : Type) :=
| Resolved (data : A)
| Rejected (err : AxiosError).
Arguments Resolved {A} data.
Arguments Rejected {A} err.

Inductive Request :=
| PostExtractDimensions (formData : list (string * File))
| PostConvertClean (body : DimensionResultValue).

(** The DOM work of a download. *)
Inductive DomEffect :=
| CreateBlob (content : string)
| CreateObjectURL
| CreateAnchor
| SetHref
| SetDownload (filename : string)
| AppendChild
| Click
| RemoveChild
| RevokeObjectURL.

(** One statement of a handler. *)
Inductive Step :=
| SetFiles (n : InputName) (f : File)
| SetPreviews (n : InputName) (dataUrl : string)
| SetIsLoading (b : bool)
| SetResult (v : option DimensionResultValue)
| SetError (v : Js.value)
| SetVbaScript (v : option string)
| SetVbaError (v : option string)
| SetIsGeneratingVba (b : bool)
| Issue (r : Request)
| Dom (d : DomEffect).

Definition set_file (n : InputName) (f : File) (fs : FileState) : FileState :=
  match n with
  | top_view_input => mkFiles (Some f) (front_view fs) (side_view fs)
  | front_view_input => mkFiles (top_view fs) (Some f) (side_view fs)
  | side_view_input => mkFiles (top_view fs) (front_view fs) (Some f)
  end.

Definition set_preview (n : InputName) (d : string) (ps : PreviewState) : PreviewState :=
  match n with
  | top_view_input => mkPreviews (Some d) (front_preview ps) (side_preview ps)
  | front_view_input => mkPreviews (top_preview ps) (Some d) (side_preview ps)
  | side_view_input => mkPreviews (top_preview ps) (front_preview ps) (Some d)
  end.

Definition apply_step (st : Step) (s : State) : State :=
  match st with
  | SetFiles n f =>
      mkState (set_file n f (files s)) (isLoading s) (result s) (error s)
              (previews s) (vbaScript s) (vbaError s) (isGeneratingVba s)
  | SetPreviews n d =>
      mkState (files s) (isLoading s) (result s) (error s)
              (set_preview n d (previews s)) (vbaScript s) (vbaError s)
              (isGeneratingVba s)
  | SetIsLoading b =>
      mkState (files s) b (result s) (error s) (previews s) (vbaScript s)
              (vbaError s) (isGeneratingVba s)
  | SetResult v =>
      mkState (files s) (isLoading s) v (error s) (previews s) (vbaScript s)
              (vbaError s) (isGeneratingVba s)
  | SetError v =>
      mkState (files s) (isLoading s) (result s) v (previews s) (vbaScript s)
              (vbaError s) (isGeneratingVba s)
  | SetVbaScript v =>
      mkState (files s) (isLoading s) (result s) (error s) (previews s) v
              (vbaError s) (isGeneratingVba s)
  | SetVbaError v =>
      mkState (files s) (isLoading s) (result s) (error s) (previews s)
              (vbaScript s) v (isGeneratingVba s)
  | SetIsGeneratingVba b =>
      mkState (files s) (isLoading s) (result s) (error s) (previews s)
              (vbaScript s) (vbaError s) b
  | Issue _ | Dom _ => s
  end.

(** Running the statements in program order. *)
Definition run (steps : list Step) (s : State) : State :=
  fold_left (fun acc st => apply_step st acc) steps s.

(** The requests a run issues, each with the state it is issued in. *)
Fixpoint issued (steps : list Step) (s : State) : list (State * Request) :=
  match steps with
  | [] => []
  | Issue r :: rest => (s, r) :: issued rest s
  | st :: rest => issued rest (apply_step st s)
  end.

Fixpoint dom_effects (steps : list Step) : list DomEffect :=
  match steps with
  | [] => []
  | Dom d :: rest => d :: dom_effects rest
  | _ :: rest => dom_effects rest
  end.

(** ** The handlers *)

(** [handleFileChange]: [selectedFiles] is [e.target.files]. *)
Definition handleFileChange (n : InputName) (selectedFiles : option (list File))
  : list Step :=
  match selectedFiles with
  | Some (file :: _) => [SetFiles n file]
  | _ => []
  end.

(** [reader.onload]: [loaded] is [event.target?.result]. *)
Definition onload (n : InputName) (loaded : option string) : list Step :=
  match loaded with
  | Some d => if truthy loaded then [SetPreviews n d] else []
  | None => []
  end.

(** [formData]: one entry per view that has a file. *)
Definition formData_of (fs : FileState) : list (string * File) :=
  flat_map (fun kv => match snd kv with
                      | Some f => [(fst kv, f)]
                      | None => []
                      end) (entries fs).

(** [handleSubmit] up to the [await]. *)
Definition handleSubmit (s : State) : list Step :=
  [ SetIsLoading true;
    SetError Js.Null;
    SetResult None;
    SetVbaScript None;
    SetVbaError None;
    Issue (PostExtractDimensions (formData_of (files s))) ].

(** [error.message || 'An error occurred while processing the images']. *)
Definition message_or_default (err : AxiosError) : string :=
  or_else (Some (message err)) "An error occurred while processing the images".

(** [error.response?.data?.error || error.message || '...']: the first
    truthy of the three. *)
Definition extraction_error (err : AxiosError) : Js.value :=
  if Js.truthy (response_data_error err) then response_data_error err
  else Js.Str (message_or_default err).

(** [handleSubmit] from the [await] on: try, catch, finally. *)
Definition handleSubmit_settled (o : Outcome DimensionResultValue) : list Step :=
  match o with
  | Resolved data => [SetResult (Some data)]
  | Rejected err => [SetError (extraction_error err)]
  end ++ [SetIsLoading false].

(** [handleGenerateVba] up to the [await]. *)
Definition handleGenerateVba (s : State) : list Step :=
  match result s with
  | None => []
  | Some r =>
      [ SetIsGeneratingVba true;
        SetVbaError None;
        SetVbaScript None;
        Issue (PostConvertClean r) ]
  end.

Definition generation_error_message (err : AxiosError) : string :=
  or_else (Some (message err)) "An error occurred while generating VBA script".

Definition handleGenerateVba_settled (o : Outcome string) : list Step :=
  match o with
  | Resolved data => [SetVbaScript (Some data)]
  | Rejected err => [SetVbaError (Some (generation_error_message err))]
  end ++ [SetIsGeneratingVba false].

(** [handleDownloadVba]. *)
Definition handleDownloadVba (s : State) : list Step :=
  match vbaScript s with
  | Some script =>
      if truthy (vbaScript s) then
        [ Dom (CreateBlob script); Dom CreateObjectURL; Dom CreateAnchor;
          Dom SetHref; Dom (SetDownload "solidworks_macro.vba");
          Dom AppendChild; Dom Click; Dom RemoveChild; Dom RevokeObjectURL ]
      else []
  | None => []
  end.

(** ** What is rendered *)

Definition is_some {A : Type} (o : option A) : bool :=
  match o with Some _ => true | None => false end.

Definition allFilesSelected (s : State) : bool :=
  forallb is_some (values (files s)).

(** The [disabled] attribute of the submit button. *)
Definition submit_disabled (s : State) : bool :=
  negb (allFilesSelected s) || isLoading s.

Definition error_shown (s : State) : bool := Js.truthy (error s).

(** A value that reads as a message: a non-empty string. *)
Definition is_message (v : Js.value) : bool :=
  match v with
  | Js.Str text => negb (String.eqb text "")
  | _ => false
  end.

(** The server's error field as the cast declares it: a string, or nothing
    that counts (a falsy value is passed over by [||]). *)
Definition declared_error (v : Js.value) : bool :=
  match v with
  | Js.Str _ => true
  | _ => negb (Js.truthy v)
  end.
Definition result_shown (s : State) : bool := is_some (result s).
Definition vba_shown (s : State) : bool :=
  result_shown s && truthy (vbaScript s).

(** ** The page as a transition system *)

Inductive Event :=
| FileChange (n : InputName) (selectedFiles : option (list File))
| Onload (n : InputName) (loaded : option string)
| Submit
| ExtractionSettled (o : Outcome DimensionResultValue)
| GenerateVba
| GenerationSettled (o : Outcome string)
| DownloadVba.

Definition handler (e : Event) (s : State) : list Step :=
  match e with
  | FileChange n selectedFiles => handleFileChange n selectedFiles
  | Onload n loaded => onload n loaded
  | Submit => handleSubmit s
  | ExtractionSettled o => handleSubmit_settled o
  | GenerateVba => handleGenerateVba s
  | GenerationSettled o => handleGenerateVba_settled o
  | DownloadVba => handleDownloadVba s
  end.

(** The component state with the number of requests awaiting an answer. *)
Record Page := mkPage { ui : State; extracting : nat; generating : nat }.

Definition start : Page := mkPage initial 0 0.

Definition is_extraction (r : Request) : bool :=
  match r with PostExtractDimensions _ => true | PostConvertClean _ => false end.

Definition requests (steps : list Step) (s : State) : list Request :=
  map snd (issued steps s).

(** A request settles only if one is awaiting its answer; the handlers of
    the buttons may be called in any state (their own guards are what is
    examined). *)
Definition possible (e : Event) (p : Page) : bool :=
  match e with
  | ExtractionSettled _ => (0 <? extracting p)%nat
  | GenerationSettled _ => (0 <? generating p)%nat
  | _ => true
  end.

Definition step (e : Event) (p : Page) : Page :=
  let rs := requests (handler e (ui p)) (ui p) in
  let sent_extract := List.length (filter is_extraction rs) in
  let sent_generate := List.length (filter (fun r => negb (is_extraction r)) rs) in
  mkPage (run (handler e (ui p)) (ui p))
         (match e with
          | ExtractionSettled _ => pred (extracting p)
          | _ => extracting p + sent_extract
          end)
         (match e with
          | GenerationSettled _ => pred (generating p)
          | _ => generating p + sent_generate
          end).

(** What an observer of the pipeline sees. *)
Inductive Mark :=
| ExtractionRequested
| ExtractionCompleted
| GenerationRequested
| GenerationCompleted
| Downloaded.

Definition nonempty {A : Type} (l : list A) : bool :=
  match l with [] => false | _ => true end.

Definition marks (e : Event) (s : State) : list Mark :=
  match e with
  | Submit => [ExtractionRequested]
  | ExtractionSettled (Resolved _) => [ExtractionCompleted]
  | GenerateVba =>
      if nonempty (requests (handleGenerateVba s) s) then [GenerationRequested] else []
  | GenerationSettled (Resolved _) => [GenerationCompleted]
  | DownloadVba =>
      if nonempty (dom_effects (handleDownloadVba s)) then [Downloaded] else []
  | _ => []
  end.

Fixpoint play (evs : list Event) (p : Page) (log : list Mark)
  : option (Page * list Mark) :=
  match evs with
  | [] => Some (p, log)
  | e :: rest =>
      if possible e p then play rest (step e p) (log ++ marks e (ui p))%list
      else None
  end.

Definition completes_extraction (e : Event) : bool :=
  match e with ExtractionSettled (Resolved _) => true | _ => false end.

(** The stages in order, and how many of them must have been passed before
    a mark may appear. *)
Definition stages : list Mark :=
  [ExtractionRequested; ExtractionCompleted; GenerationRequested; GenerationCompleted].

Definition needs (m : Mark) : nat :=
  match m with
  | ExtractionRequested => 0
  | ExtractionCompleted => 1
  | GenerationRequested => 2
  | GenerationCompleted => 3
  | Downloaded => 4
  end.

Definition mark_eqb (a b : Mark) : bool :=
  match a, b with
  | ExtractionRequested, ExtractionRequested
  | ExtractionCompleted, ExtractionCompleted
  | GenerationRequested, GenerationRequested
  | GenerationCompleted, GenerationCompleted
  | Downloaded, Downloaded => true
  | _, _ => false
  end.

(** [xs] occurs in [ys], in order. *)
Fixpoint is_subseq (xs ys : list Mark) : bool :=
  match ys with
  | [] => match xs with [] => true | _ => false end
  | y :: ys' =>
      match xs with
      | [] => true
      | x :: xs' => if mark_eqb x y then is_subseq xs' ys' else is_subseq xs ys'
      end
  end.

Definition passed (k : nat) (log : list Mark) : bool :=
  is_subseq (firstn k stages) log.

(** Every mark of the log comes after all the stages before it, in order. *)
Definition forward (log : list Mark) : Prop :=
  forall pre m post,
    log = (pre ++ m :: post)%list -> passed (needs m) pre = true.

(** What the state of the page says about its log. *)
Record consistent (p : Page) (log : list Mark) : Prop := {
  log_forward : forward log;
  extracting_requested : (0 < extracting p)%nat -> passed 1 log = true;
  result_completed : result (ui p) <> None -> passed 2 log = true;
  generating_requested : (0 < generating p)%nat -> passed 3 log = true;
  script_completed : truthy (vbaScript (ui p)) = true -> passed 4 log = true
}.

(** What is expected of the state after a failed request: no result is
    kept or shown, and the error cell holds a message. *)
Definition failure_reported (s : State) : Prop :=
  result s = None /\ result_shown s = false /\ is_message (error s) = true.

(** A context with nothing left of an earlier invocation: the four outputs
    are null and no script generation is flagged or awaited. *)
Definition fresh_context (p : Page) : Prop :=
  result (ui p) = None /\ error (ui p) = Js.Null /\
  vbaScript (ui p) = None /\ vbaError (ui p) = None /\
  isGeneratingVba (ui p) = false /\ generating p = 0%nat.

(** ** Example states and runs *)

Definition three_views : State :=
  mkState (mkFiles (Some (mkFile "top.png")) (Some (mkFile "front.png"))
                   (Some (mkFile "side.png")))
          false None Js.Null (mkPreviews None None None) None None false.

Definition bad_request : AxiosError :=
  mkAxiosError (Js.Str "No shapes detected in front view")
               "Request failed with status code 400".

(** A failure whose body has an object where the message is expected:
    status 422 with the body [{error: {code: 1}}]. *)
Definition structured_error : AxiosError :=
  mkAxiosError (Js.Obj [("code", Js.Num (Js.Finite 1))])
               "Request failed with status code 422".

Definition extracted : DimensionResultValue :=
  mkDimensionResult
    (mkRoot "base_extrude"
            [ mkOperation "cut" (mkDimensions 30 30 100) (mkPosition 5 15 0) ]).

Definition full_run : list Event :=
  [ FileChange top_view_input (Some [mkFile "top.png"]);
    FileChange front_view_input (Some [mkFile "front.png"]);
    FileChange side_view_input (Some [mkFile "side.png"]);
    Submit;
    ExtractionSettled (Resolved extracted);
    GenerateVba;
    GenerationSettled (Resolved "Sub CreateModelFromJSON()");
    DownloadVba ].

End Extractor.

(* ================================================================== *)
(** * The Gemini helper (geminiApi.ts) *)
(* ================================================================== *)

Module Gemini.

Import Js.
Local Open Scope Q_scope.

(** One constructor per [throw] of the two functions, and the errors the
    platform raises. *)
Inductive Error :=
| ApiKeyNotConfigured
| ReadFailed
| FetchFailed
| ApiCallFailed (status : Z)
| MalformedOrEmpty
| TooLong
| TextEmptyOrMissing
| TypeError
| SyntaxError
| MissingResponseType
| MissingRecommendations
| NotThreeRecommendations
| InvalidAnalysisType (index : nat)
| InvalidConfidence (index : nat)
| MissingReasoning (index : nat)
| FailedToParse (inner : Error).

Inductive Result (A : Type) :=
| Returns (a : A)
| Throws (e : Error).
Arguments Returns {A} a.
Arguments Throws {A} e.

Definition bind {A B : Type} (r : Result A) (k : A -> Result B) : Result B :=
  match r with
  | Returns a => k a
  | Throws e => Throws e
  end.

(** A property read, which throws on null and undefined. *)
Definition read (v : value) (k : string) : Result value :=
  match get v k with
  | Some x => Returns x
  | None => Throws TypeError
  end.

Definition read_first (v : value) : Result value :=
  match first v with
  | Some x => Returns x
  | None => Throws TypeError
  end.

Notation "x <- c ;; k" := (bind c (fun x => k))
  (at level 61, c at next level, right associativity).
Notation "'throw_if' b 'with' e ;; k" := (if b then Throws e else k)
  (at level 61, b at next level, e at next level, right associativity).

Definition validAnalyses : list string :=
  ["structural"; "thermal"; "magnetostatic"; "modal"].

(** The callback of [recommendations.forEach]. *)
Definition validate_recommendation (index : nat) (rec : value) : Result unit :=
  analysis_type <- read rec "analysis_type" ;;
  throw_if negb (truthy analysis_type) || negb (includes validAnalyses analysis_type)
    with InvalidAnalysisType index ;;
  confidence <- read rec "confidence" ;;
  throw_if negb (typeof_number confidence) || lt_0 confidence || gt_1 confidence
    with InvalidConfidence index ;;
  reasoning <- read rec "reasoning" ;;
  throw_if negb (truthy reasoning) with MissingReasoning index ;;
  Returns tt.

Fixpoint forEach (f : nat -> value -> Result unit) (index : nat)
         (items : list value) : Result unit :=
  match items with
  | [] => Returns tt
  | item :: rest => _ <- f index item ;; forEach f (S index) rest
  end.

(** The validation of [parsedResponse], the same in both functions. *)
Definition validate (parsedResponse : value) : Result value :=
  response_type <- read parsedResponse "response_type" ;;
  throw_if negb (truthy response_type)
           || negb (is_string response_type "analysis_recommendation")
    with MissingResponseType ;;
  data <- read parsedResponse "data" ;;
  throw_if negb (truthy data) with MissingRecommendations ;;
  recommendations <- read data "recommendations" ;;
  throw_if negb (truthy recommendations) || negb (isArray recommendations)
    with MissingRecommendations ;;
  match recommendations with
  | Arr items =>
      throw_if negb (Nat.eqb (List.length items) 3) with NotThreeRecommendations ;;
      _ <- forEach validate_recommendation 0 items ;;
      Returns parsedResponse
  | _ => Throws MissingRecommendations
  end.

(** What [fetch] settles with; [json] is [None] when [response.json()]
    rejects. *)
Record Response := mkResponse { ok : bool; status : Z; json : option value }.

Inductive Fetch :=
| Rejects
| Resolves (response : Response).

Section Platform.

(** String functions of the platform: [trim], the two regular-expression
    matches (their first group, if they match) and [JSON.parse] ([None]
    when it throws). *)
Variable trim : string -> string.
Variable match_code_block : string -> option string.
Variable match_braces : string -> option string.
Variable JSON_parse : string -> option value.

(** The cleaning of the response text before it is parsed. *)
Definition clean (geminiResponse : string) : string :=
  let jsonString := trim geminiResponse in
  let jsonString :=
    match match_code_block jsonString with
    | Some group => trim group
    | None => jsonString
    end in
  match match_braces jsonString with
  | Some group => group
  | None => jsonString
  end.

(** The inner [try]: whatever is thrown there is thrown again as "Failed to
    parse Gemini response".  A response text that is not a string has no
    [trim] to call. *)
Definition parse_response (geminiResponse : value) : Result value :=
  match
    match geminiResponse with
    | Str text =>
        match JSON_parse (clean text) with
        | Some parsedResponse => validate parsedResponse
        | None => Throws SyntaxError
        end
    | _ => Throws TypeError
    end
  with
  | Returns parsedResponse => Returns parsedResponse
  | Throws parseError => Throws (FailedToParse parseError)
  end.

(** From the settled [fetch] on; the same in both functions. *)
Definition handle_response (fetched : Fetch) : Result value :=
  match fetched with
  | Rejects => Throws FetchFailed
  | Resolves response =>
      throw_if negb (ok response) with ApiCallFailed (status response) ;;
      match json response with
      | None => Throws SyntaxError
      | Some data =>
          candidates <- read data "candidates" ;;
          throw_if negb (truthy candidates) with MalformedOrEmpty ;;
          length <- read candidates "length" ;;
          throw_if is_zero length with MalformedOrEmpty ;;
          candidate <- read_first candidates ;;
          finishReason <- read candidate "finishReason" ;;
          throw_if is_string finishReason "MAX_TOKENS" with TooLong ;;
          content <- read candidate "content" ;;
          throw_if negb (truthy content) with MalformedOrEmpty ;;
          parts <- read content "parts" ;;
          throw_if negb (truthy parts) with MalformedOrEmpty ;;
          parts_length <- read parts "length" ;;
          throw_if is_zero parts_length with MalformedOrEmpty ;;
          part <- read_first parts ;;
          geminiResponse <- read part "text" ;;
          throw_if negb (truthy geminiResponse) with TextEmptyOrMissing ;;
          parse_response geminiResponse
      end
  end.

(** [apiKey] is [import.meta.env.VITE_GOOGLE_GEMINI_API_KEY]; the
    description and the file name only enter the prompt. *)
Definition getAnalysisRecommendation (apiKey : option string) (fetched : Fetch)
  : Result value :=
  match apiKey with
  | None => Throws ApiKeyNotConfigured
  | Some key =>
      throw_if String.eqb key "" with ApiKeyNotConfigured ;;
      handle_response fetched
  end.

(** [base64Image] is what the [FileReader] promise settles with ([None]
    when it rejects). *)
Definition getAnalysisRecommendationWithImage (apiKey : option string)
           (base64Image : option string) (fetched : Fetch) : Result value :=
  match apiKey with
  | None => Throws ApiKeyNotConfigured
  | Some key =>
      throw_if String.eqb key "" with ApiKeyNotConfigured ;;
      match base64Image with
      | None => Throws ReadFailed
      | Some _ => handle_response fetched
      end
  end.

End Platform.

(** ** The shapes *)

Definition valid_analysis_type (rec : value) : Prop :=
  exists s, get rec "analysis_type" = Some (Str s) /\ In s validAnalyses.

Definition valid_confidence (rec : value) : Prop :=
  exists q, get rec "confidence" = Some (Num (Finite q)) /\ 0 <= q /\ q <= 1.

(** The reasoning as the claim has it: a non-empty string. *)
Definition string_reasoning (rec : value) : Prop :=
  exists s, get rec "reasoning" = Some (Str s) /\ s <> "".

(** The reasoning as the code checks it: any truthy value. *)
Definition truthy_reasoning (rec : value) : Prop :=
  exists r, get rec "reasoning" = Some r /\ truthy r = true.

Definition shape (reasoning_ok : value -> Prop) (v : value) : Prop :=
  get v "response_type" = Some (Str "analysis_recommendation") /\
  exists data items,
    get v "data" = Some data /\
    get data "recommendations" = Some (Arr items) /\
    List.length items = 3%nat /\
    Forall (fun rec => valid_analysis_type rec /\ valid_confidence rec /\
                       reasoning_ok rec) items.

Definition claimed_shape : value -> Prop := shape string_reasoning.
Definition validated_shape : value -> Prop := shape truthy_reasoning.

(** A recommendation and a response as the API sends them. *)
Definition recommendation (analysis_type : string) (confidence : Q)
           (reasoning : value) : value :=
  Obj [ ("analysis_type", Str analysis_type);
        ("confidence", Num (Finite confidence));
        ("reasoning", reasoning) ].

Definition analysis_recommendation (recommendations : list value) : value :=
  Obj [ ("response_type", Str "analysis_recommendation");
        ("data", Obj [ ("recommendations", Arr recommendations) ]) ].

Definition api_response (text : string) : Response :=
  mkResponse true 200
    (Some (Obj [ ("candidates",
                  Arr [ Obj [ ("content",
                               Obj [ ("parts", Arr [ Obj [ ("text", Str text) ] ]) ]);
                              ("finishReason", Str "STOP") ] ]) ])).

(** The parsed form of a response whose third reasoning is the number 5. *)
Definition numeric_reasoning : value :=
  analysis_recommendation
    [ recommendation "structural" 0.85 (Str "component under mechanical load");
      recommendation "modal" 0.65 (Str "dynamic loads may be present");
      recommendation "thermal" 0.45 (Num (Finite 5)) ].

(** Stand-ins for the platform functions on a text that is already clean:
    nothing to trim, no code block, the braces span the whole text. *)
Definition response_text : string :=
  "{response_type: analysis_recommendation, data: {recommendations: [..., {analysis_type: thermal, confidence: 0.45, reasoning: 5}]}}".

Definition parse_response_text (s : string) : option value :=
  if String.eqb s response_text then Some numeric_reasoning else None.

End Gemini.

(* ================================================================== *)
(** * The macro code generator, from the specification *)
(* ================================================================== *)

(** The generator that compiles a feature tree into a macro program belongs
    to the backend (port 5002); its code is not among the sources, only
    macros are.  This module models it from section 4.4 of the
    specification. *)
Module Generator.

Local Open Scope Z_scope.

(** Modelled from the spec: the operation kinds of a FeatureNode (section 3);
    the feature tree is built by the backend, which is missing from the
    sources. *)
Inductive OperationKind := base_extrude | cut | boss.

(** Modelled from the spec: FeatureNode, section 3: kind, dimensions,
    position relative to the parent, ordered children. *)
Inductive FeatureNode :=
| Node (operation : OperationKind) (w h d : Z) (relative : Z * Z)
       (children : list FeatureNode).

(** Modelled from the spec: what a sketch begins on, the base plane or a
    face of the parent node.  Nodes are numbered in pre-order, the root is
    node 0. *)
Inductive SketchOn := BasePlane | FaceOf (parent : nat).

(** Modelled from the spec: MacroOperation, section 3. *)
Inductive MacroOperation :=
| begin_sketch (on : SketchOn)
| create_rectangle (at_ : Z * Z) (w h : Z)
| end_sketch
| extrude_by (d : Z)
| cut_by (d : Z).

(** Modelled from the spec: MacroProgram, an ordered sequence. *)
Definition MacroProgram : Type := list MacroOperation.

(** Modelled from the spec: the Macro Code Generator of section 4.4, which
    is missing from the sources.  A pre-order walk; the root is sketched on
    the base plane, every child on a face of its parent; a node emits
    begin_sketch, create_rectangle, end_sketch and an extrude, or a cut for
    a cut node.  [self] is the number of the node, the second component of
    the result the number of the next node. *)
Fixpoint emit (on : SketchOn) (self : nat) (n : FeatureNode) {struct n}
  : MacroProgram * nat :=
  match n with
  | Node operation w h d relative children =>
      let own :=
        [ begin_sketch on; create_rectangle relative w h; end_sketch;
          match operation with cut => cut_by d | _ => extrude_by d end ] in
      let fix emit_children (cs : list FeatureNode) (next : nat)
        : MacroProgram * nat :=
        match cs with
        | [] => ([], next)
        | c :: rest =>
            let (ops, next1) := emit (FaceOf self) next c in
            let (ops', next2) := emit_children rest next1 in
            ((ops ++ ops')%list, next2)
        end in
      let (below, next) := emit_children children (S self) in
      ((own ++ below)%list, next)
  end.

(** Modelled from the spec: the generator starts at the root, on the base
    plane. *)
Definition generate (tree : FeatureNode) : MacroProgram :=
  fst (emit BasePlane 0 tree).

(** Modelled from the spec: the walk over the children of node [self], as
    [emit] makes it. *)
Fixpoint emit_children (self : nat) (cs : list FeatureNode) (next : nat)
  : MacroProgram * nat :=
  match cs with
  | [] => ([], next)
  | c :: rest =>
      let (ops, next1) := emit (FaceOf self) next c in
      let (ops', next2) := emit_children self rest next1 in
      ((ops ++ ops')%list, next2)
  end.

(** Modelled from the spec: the operations that terminate a feature. *)
Definition terminates (op : MacroOperation) : bool :=
  match op with extrude_by _ | cut_by _ => true | _ => false end.

(** Modelled from the spec: the index of the extrude or cut operation of
    node [k].  Every node emits one, in pre-order, so it is the [k]-th
    terminating operation of the program, counted from 0. *)
Fixpoint terminator_index (k : nat) (program : MacroProgram) : option nat :=
  match program with
  | [] => None
  | op :: rest =>
      if terminates op then
        match k with
        | O => Some O
        | S k' => option_map S (terminator_index k' rest)
        end
      else option_map S (terminator_index k rest)
  end.

(** Modelled from the spec: the ordering property of section 8: the index
    of any operation referencing a parent face is strictly greater than the
    index of that parent's extrude or cut operation. *)
Definition ordering_property (program : MacroProgram) : Prop :=
  forall i parent,
    nth_error program i = Some (begin_sketch (FaceOf parent)) ->
    exists j, terminator_index parent program = Some j /\ (j < i)%nat.

(** A program in blocks of four operations, one block per sketch target. *)
Inductive blocked : list SketchOn -> MacroProgram -> Prop :=
| blocked_nil : blocked [] []
| blocked_cons on at_ w h t ons ops :
    terminates t = true -> blocked ons ops ->
    blocked (on :: ons)
            (begin_sketch on :: create_rectangle at_ w h :: end_sketch :: t :: ops).

(** The targets of the nodes numbered from [base] on are faces of nodes
    with a smaller number. *)
Definition parents_before (base : nat) (ons : list SketchOn) : Prop :=
  forall c t, nth_error ons c = Some t ->
              exists p, t = FaceOf p /\ (p < base + c)%nat.

(** Modelled from the spec: the FeatureTree Scenario B of section 8
    expects, with the nested node taken as a cut, and a tree with a boss
    that carries a cut of its own. *)
Definition scenario_B_tree : FeatureNode :=
  Node base_extrude 40 60 100 (0, 0) [ Node cut 30 40 100 (5, 15) [] ].

Definition three_level_tree : FeatureNode :=
  Node base_extrude 40 60 100 (0, 0)
       [ Node boss 20 20 10 (5, 5) [ Node cut 10 10 5 (2, 2) [] ];
         Node cut 5 5 100 (30, 50) [] ].

(** A program whose second feature is sketched on a face of the third. *)
Definition misordered : MacroProgram :=
  [ begin_sketch BasePlane; create_rectangle (0, 0) 40 60; end_sketch;
    extrude_by 100;
    begin_sketch (FaceOf 2); create_rectangle (2, 2) 10 10; end_sketch;
    cut_by 5;
    begin_sketch (FaceOf 0); create_rectangle (5, 5) 20 20; end_sketch;
    extrude_by 10 ].

End Generator.

(* ================================================================== *)
(** * Outcomes of the Gemini helper (geminiApi.ts) *)
(* ================================================================== *)

(** The conditions under which [getAnalysisRecommendation] and
    [getAnalysisRecommendationWithImage] return, and the errors they throw
    otherwise, in terms of the checks of the two functions. *)
Module GeminiOutcomes.
Import Js Gemini.
Local Open Scope Q_scope.

(** [v.length] is there and is not [0]. *)
Definition nonzero_length (v : value) : Prop :=
  exists len, get v "length" = Some len /\ is_zero len = false.

(** The envelope the functions unwrap before they parse: an ok response
    whose body has a truthy [candidates] with a [length] that is not 0, a
    first candidate that did not stop at the token limit and has a truthy
    [content] whose [parts] is truthy with a [length] that is not 0, and a
    non-empty string as the [text] of the first part.  [candidates] and
    [parts] are not checked to be arrays. *)
Definition envelope (response : Response) (text : string) : Prop :=
  ok response = true /\
  exists data candidates candidate finishReason content parts part,
    json response = Some data /\
    get data "candidates" = Some candidates /\
    truthy candidates = true /\ nonzero_length candidates /\
    first candidates = Some candidate /\
    get candidate "finishReason" = Some finishReason /\
    is_string finishReason "MAX_TOKENS" = false /\
    get candidate "content" = Some content /\ truthy content = true /\
    get content "parts" = Some parts /\
    truthy parts = true /\ nonzero_length parts /\
    first parts = Some part /\
    get part "text" = Some (Str text) /\ text <> "".

(** The errors thrown before the response text is parsed. *)
Definition envelope_error (e : Error) : bool :=
  match e with
  | FetchFailed | ApiCallFailed _ | SyntaxError | TypeError
  | MalformedOrEmpty | TooLong | TextEmptyOrMissing => true
  | _ => false
  end.

(** The errors thrown inside the inner [try], where the text is parsed and
    validated. *)
Definition parse_error (e : Error) : bool :=
  match e with
  | TypeError | SyntaxError | MissingResponseType | MissingRecommendations
  | NotThreeRecommendations | InvalidAnalysisType _ | InvalidConfidence _
  | MissingReasoning _ => true
  | _ => false
  end.

(** Why the callback of [forEach] throws [e] on [rec] at [index]: [rec] is
    null or undefined, or [e] names the first of the three checks that
    [rec] fails. *)
Definition rejection (index : nat) (rec : value) (e : Error) : Prop :=
  (e = TypeError /\ (rec = Null \/ rec = Undefined))
  \/ (e = InvalidAnalysisType index /\ rec <> Null /\ rec <> Undefined /\
      ~ valid_analysis_type rec)
  \/ (e = InvalidConfidence index /\ valid_analysis_type rec /\
      ~ valid_confidence rec)
  \/ (e = MissingReasoning index /\ valid_analysis_type rec /\
      valid_confidence rec /\ ~ truthy_reasoning rec).

(** A recommendation that passes the three checks of the callback. *)
Definition valid_recommendation (rec : value) : Prop :=
  valid_analysis_type rec /\ valid_confidence rec /\ truthy_reasoning rec.

(** ** Example responses *)

(** The parsed form of a response with three ranked recommendations, and of
    one whose second confidence is out of range. *)
Definition ranked : value :=
  analysis_recommendation
    [ recommendation "structural" 0.9 (Str "a bracket under a static load");
      recommendation "modal" 0.6 (Str "the load may vary in time");
      recommendation "thermal" 0.3 (Str "no heat source is described") ].

Definition overconfident : value :=
  analysis_recommendation
    [ recommendation "structural" 0.9 (Str "a bracket under a static load");
      recommendation "modal" 1.5 (Str "the load may vary in time");
      recommendation "thermal" 0.3 (Str "no heat source is described") ].

(** Stand-ins for [JSON.parse] on two texts that are already clean. *)
Definition ranked_text : string :=
  "{response_type: analysis_recommendation, data: {recommendations: [structural 0.9, modal 0.6, thermal 0.3]}}".

Definition overconfident_text : string :=
  "{response_type: analysis_recommendation, data: {recommendations: [structural 0.9, modal 1.5, thermal 0.3]}}".

(** A response whose [candidates] and [parts] are objects with a property
    [0], not arrays. *)
Definition object_response : Response :=
  mkResponse true 200
    (Some (Obj [ ("candidates",
                  Obj [ ("0",
                         Obj [ ("content",
                                Obj [ ("parts",
                                       Obj [ ("0", Obj [ ("text", Str ranked_text) ]) ]) ]);
                               ("finishReason", Str "STOP") ]) ]) ])).

Definition parse_example_text (s : string) : option value :=
  if String.eqb s ranked_text then Some ranked
  else if String.eqb s overconfident_text then Some overconfident
  else None.

End GeminiOutcomes.

(* ================================================================== *)
(** * The DimensionExtractor page as the user can drive it *)
(* ================================================================== *)

Module ExtractorUi.
Import Schema Extractor.

(** What the rendered page lets happen: a click on a button that is
    rendered and not disabled, a file dialog, or the answer to a pending
    request.  The generate button is inside the result section, the download
    button inside the script section. *)
Definition clickable (e : Event) (p : Page) : bool :=
  match e with
  | Submit => negb (submit_disabled (ui p))
  | GenerateVba => result_shown (ui p) && negb (isGeneratingVba (ui p))
  | DownloadVba => vba_shown (ui p)
  | ExtractionSettled _ => (0 <? extracting p)%nat
  | GenerationSettled _ => (0 <? generating p)%nat
  | FileChange _ _ | Onload _ _ => true
  end.

(** A session: the page after the events, with the requests sent. *)
Fixpoint browse (evs : list Event) (p : Page) (sent : list Request)
  : option (Page * list Request) :=
  match evs with
  | [] => Some (p, sent)
  | e :: rest =>
      if clickable e p
      then browse rest (step e p)
                  (sent ++ requests (handler e (ui p)) (ui p))%list
      else None
  end.

Definition pending (flag : bool) : nat := if flag then 1 else 0.

(** The form of an extraction request has the three views, in the order of
    the keys of [files]. *)
Definition three_views_posted (r : Request) : Prop :=
  match r with
  | PostExtractDimensions formData =>
      map fst formData = ["top_view"; "front_view"; "side_view"]
  | PostConvertClean _ => True
  end.

(** [files[name]]. *)
Definition file_of (n : InputName) (fs : FileState) : option File :=
  match n with
  | top_view_input => top_view fs
  | front_view_input => front_view fs
  | side_view_input => side_view fs
  end.

(** The state of a page reached through the interface: a flag is set
    exactly while its request is awaited, and the outputs of a request are
    blank while it is awaited. *)
Record tidy (p : Page) : Prop := {
  one_extraction : extracting p = pending (isLoading (ui p));
  one_generation : generating p = pending (isGeneratingVba (ui p));
  loading_is_blank :
    isLoading (ui p) = true -> result (ui p) = None /\ error (ui p) = Js.Null;
  generating_is_blank :
    isGeneratingVba (ui p) = true ->
    vbaScript (ui p) = None /\ vbaError (ui p) = None;
  result_or_error : result (ui p) = None \/ error (ui p) = Js.Null;
  script_or_error : vbaScript (ui p) = None \/ vbaError (ui p) = None
}.

(** What the events so far say about the page and about the requests
    sent. *)
Record sound_history (past : list Event) (p : Page) (sent : list Request)
  : Prop := {
  result_was_delivered :
    forall r, result (ui p) = Some r -> In (ExtractionSettled (Resolved r)) past;
  views_posted : Forall three_views_posted sent;
  converted_was_delivered :
    forall r, In (PostConvertClean r) sent ->
              In (ExtractionSettled (Resolved r)) past
}.

(** The component on its own: the state after an event and after a list of
    events, and the requests sent on the way. *)
Definition react (s : State) (e : Event) : State := run (handler e s) s.

Definition after (evs : list Event) (s : State) : State := fold_left react evs s.

Fixpoint sent_during (evs : list Event) (s : State) : list Request :=
  match evs with
  | [] => []
  | e :: rest => (requests (handler e s) s ++ sent_during rest (react s e))%list
  end.

(** ** Example sessions *)



(** A session up to a pending generation, the page it reaches and the
    requests it sends. *)
Definition until_generation : list Event :=
  [ FileChange top_view_input (Some [mkFile "top.png"]);
    FileChange front_view_input (Some [mkFile "front.png"]);
    FileChange side_view_input (Some [mkFile "side.png"]);
    Submit;
    ExtractionSettled (Resolved extracted);
    GenerateVba ].

Definition generation_pending : Page :=
  match browse until_generation start [] with
  | Some (p, _) => p
  | None => start
  end.

Definition generation_requests : list Request :=
  match browse until_generation start [] with
  | Some (_, sent) => sent
  | None => []
  end.

(** A session that ends in a failed extraction. *)
Definition until_failure : list Event :=
  [ FileChange top_view_input (Some [mkFile "top.png"]);
    FileChange front_view_input (Some [mkFile "front.png"]);
    FileChange side_view_input (Some [mkFile "side.png"]);
    Submit;
    ExtractionSettled (Rejected bad_request) ].

Definition extraction_failed : Page :=
  match browse until_failure start [] with
  | Some (p, _) => p
  | None => start
  end.

End ExtractorUi.

(* ================================================================== *)
(** * The App component (frontend/src/App.tsx) *)
(* ================================================================== *)

(** The earlier page: the same three file inputs and the same submission,
    without the script generation. *)
Module AppComponent.
Import Schema Extractor.

Record State := mkState {
  files : FileState;
  isLoading : bool;
  result : option DimensionResultValue;
  error : Js.value;
  previews : PreviewState
}.

Definition initial : State :=
  mkState (mkFiles None None None) false None Js.Null
          (mkPreviews None None None).

Inductive Step :=
| SetFiles (n : InputName) (f : File)
| SetPreviews (n : InputName) (dataUrl : string)
| SetIsLoading (b : bool)
| SetError (v : Js.value)
| SetResult (v : option DimensionResultValue)
| Issue (formData : list (string * File)).

Definition apply_step (st : Step) (s : State) : State :=
  match st with
  | SetFiles n f =>
      mkState (set_file n f (files s)) (isLoading s) (result s) (error s)
              (previews s)
  | SetPreviews n d =>
      mkState (files s) (isLoading s) (result s) (error s)
              (set_preview n d (previews s))
  | SetIsLoading b => mkState (files s) b (result s) (error s) (previews s)
  | SetError v => mkState (files s) (isLoading s) (result s) v (previews s)
  | SetResult v => mkState (files s) (isLoading s) v (error s) (previews s)
  | Issue _ => s
  end.

Definition run (steps : list Step) (s : State) : State :=
  fold_left (fun acc st => apply_step st acc) steps s.

(** The forms posted to [/extract-dimensions]. *)
Fixpoint posted (steps : list Step) : list (list (string * File)) :=
  match steps with
  | [] => []
  | Issue formData :: rest => formData :: posted rest
  | _ :: rest => posted rest
  end.

(** [handleFileChange]: [selectedFiles] is [e.target.files]. *)
Definition handleFileChange (n : InputName) (selectedFiles : option (list File))
  : list Step :=
  match selectedFiles with
  | Some (file :: _) => [SetFiles n file]
  | _ => []
  end.

(** [reader.onload]: [loaded] is [event.target?.result]. *)
Definition onload (n : InputName) (loaded : option string) : list Step :=
  match loaded with
  | Some d => if truthy loaded then [SetPreviews n d] else []
  | None => []
  end.

(** [handleSubmit] up to the [await], and from it on. *)
Definition handleSubmit (s : State) : list Step :=
  [ SetIsLoading true;
    SetError Js.Null;
    SetResult None;
    Issue (formData_of (files s)) ].

Definition handleSubmit_settled (o : Outcome DimensionResultValue) : list Step :=
  match o with
  | Resolved data => [SetResult (Some data)]
  | Rejected err => [SetError (extraction_error err)]
  end ++ [SetIsLoading false].

Definition allFilesSelected (s : State) : bool :=
  forallb is_some (values (files s)).

Definition submit_disabled (s : State) : bool :=
  negb (allFilesSelected s) || isLoading s.

(** The events of the DimensionExtractor page, on this page: it has no
    script section, so the events of that section find nothing to do. *)
Definition handler (e : Event) (s : State) : list Step :=
  match e with
  | FileChange n selectedFiles => handleFileChange n selectedFiles
  | Onload n loaded => onload n loaded
  | Submit => handleSubmit s
  | ExtractionSettled o => handleSubmit_settled o
  | GenerateVba | GenerationSettled _ | DownloadVba => []
  end.

Definition react (s : State) (e : Event) : State := run (handler e s) s.

Definition after (evs : list Event) (s : State) : State := fold_left react evs s.

Fixpoint posted_during (evs : list Event) (s : State)
  : list (list (string * File)) :=
  match evs with
  | [] => []
  | e :: rest => (posted (handler e s) ++ posted_during rest (react s e))%list
  end.

(** The cells the DimensionExtractor page shares with this one, and the
    extraction forms among its requests. *)
Definition shared (s : Extractor.State) : State :=
  mkState (Extractor.files s) (Extractor.isLoading s) (Extractor.result s)
          (Extractor.error s) (Extractor.previews s).

Definition extraction_posts (rs : list Request) : list (list (string * File)) :=
  flat_map (fun r => match r with
                     | PostExtractDimensions formData => [formData]
                     | PostConvertClean _ => []
                     end) rs.

End AppComponent.

(* ================================================================== *)
(** * The routes of the application *)
(* ================================================================== *)

Module Router.

(** The [path] of every [Route] of [App], in the version with the analysis
    pages. *)
Definition routes : list string :=
  [ "/"; "/modelling"; "/cae"; "/cae/ai-recommend"; "/cae/structural";
    "/cae/thermal"; "/cae/magnetostatic"; "/cae/modal" ].

Definition declared (path : string) : bool := existsb (String.eqb path) routes.

End Router.

(* ================================================================== *)
(** * The AIRecommendation component *)
(* ================================================================== *)

(** The page that calls the Gemini helper.  Strings stand for JavaScript
    strings, one character for one code unit. *)
Module Recommender.
Import Js.

(** A [File], as far as the component looks at it. *)
Record File := mkFile { name : string; type : string }.

(** The [useState] cells of the component. *)
Record State := mkState {
  file : option File;
  description : string;
  isAnalyzing : bool;
  error : string;
  recommendation : value
}.

Definition initial : State := mkState None "" false "" Null.

(** [analysisInfo], by key; of each entry the title. *)
Definition analysisInfo : list (string * string) :=
  [ ("structural", "Static Structural Analysis");
    ("thermal", "Thermal Analysis");
    ("magnetostatic", "Magnetostatic Analysis");
    ("modal", "Modal Analysis") ].

(** [table[key]]. *)
Fixpoint info_of (key : string) (table : list (string * string)) : option string :=
  match table with
  | [] => None
  | (k, title) :: rest => if String.eqb k key then Some title else info_of key rest
  end.

(** [handleProceedToAnalysis]: the path navigated to. *)
Definition handleProceedToAnalysis (analysisType : string) : string :=
  "/cae/" ++ analysisType.

(** [s.endsWith(suffix)]. *)
Definition endsWith (s suffix : string) : bool :=
  let n := String.length s in
  let m := String.length suffix in
  (m <=? n)%nat && String.eqb (substring (n - m) m s) suffix.

Definition newline : string := String (ascii_of_nat 10) EmptyString.

(** The description sent for a STEP file: the user's description, if there
    is one, and the first 2000 characters of the file. *)
Definition step_section (stepContent : string) : string :=
  "STEP File Content (first 2000 chars):" ++ newline
  ++ substring 0 2000 stepContent.

Definition enhance (description stepContent : string) : string :=
  if String.eqb description "" then step_section stepContent
  else description ++ newline ++ newline ++ step_section stepContent.

(** The calls into geminiApi.ts. *)
Inductive Call :=
| CallWithImage (userDescription : string) (imageFile : File)
| CallText (userDescription : string) (fileName : option string).

(** What an [await] of the handler settles with; [message] is
    [err.message], empty when it is missing. *)
Inductive Settled (A : Type) :=
| Fulfilled (a : A)
| Failed (message : string).
Arguments Fulfilled {A} a.
Arguments Failed {A} message.

Inductive Step :=
| SetFile (f : option File)
| SetDescription (d : string)
| SetIsAnalyzing (b : bool)
| SetError (e : string)
| SetRecommendation (r : value)
| ReadText (f : File)
| Invoke (c : Call).

Definition apply_step (st : Step) (s : State) : State :=
  match st with
  | SetFile f =>
      mkState f (description s) (isAnalyzing s) (error s) (recommendation s)
  | SetDescription d =>
      mkState (file s) d (isAnalyzing s) (error s) (recommendation s)
  | SetIsAnalyzing b =>
      mkState (file s) (description s) b (error s) (recommendation s)
  | SetError e =>
      mkState (file s) (description s) (isAnalyzing s) e (recommendation s)
  | SetRecommendation r =>
      mkState (file s) (description s) (isAnalyzing s) (error s) r
  | ReadText _ | Invoke _ => s
  end.

Definition run (steps : list Step) (s : State) : State :=
  fold_left (fun acc st => apply_step st acc) steps s.

(** The calls into geminiApi.ts and the [file.text()] reads that a handler
    starts. *)
Fixpoint calls (steps : list Step) : list Call :=
  match steps with
  | [] => []
  | Invoke c :: rest => c :: calls rest
  | _ :: rest => calls rest
  end.

Fixpoint reads (steps : list Step) : list File :=
  match steps with
  | [] => []
  | ReadText f :: rest => f :: reads rest
  | _ :: rest => reads rest
  end.

(** What the handler awaits. *)
Inductive Awaiting :=
| Idle
| AwaitingText (description : string) (f : File)
| AwaitingAnswer.

(** The component state with what its handler awaits; [description] and
    [f] are those of the click, which the handler keeps. *)
Record Page := mkPage { ui : State; awaiting : Awaiting }.

Definition start : Page := mkPage initial Idle.

Inductive Event :=
| FileChange (selected : option (list File))
| DescriptionChange (d : string)
| Analyze
| TextSettled (o : Settled string)
| Answered (o : Settled value)
| TryAgain.

Section Platform.

(** [String.prototype.trim] and [toLowerCase], and the message of the
    TypeError of reading a property of null or undefined. *)
Variable trim : string -> string.
Variable toLowerCase : string -> string.
Variable type_error_message : string.

Definition is_image (f : File) : bool := prefix "image/" (type f).

Definition is_step (f : File) : bool :=
  endsWith (toLowerCase (name f)) ".step"
  || endsWith (toLowerCase (name f)) ".stp".

(** [handleFileChange]: [selected] is [e.target.files]. *)
Definition handleFileChange (selected : option (list File)) : list Step :=
  match selected with
  | Some (selectedFile :: _) =>
      if is_image selectedFile || is_step selectedFile
      then [SetFile (Some selectedFile); SetError ""]
      else [ SetError "Please upload an image (PNG, JPG, etc.) or STEP file (.step, .stp)";
             SetFile None ]
  | _ => []
  end.

Definition is_none {A : Type} (o : option A) : bool :=
  match o with None => true | Some _ => false end.

(** [!description.trim() && !file]. *)
Definition nothing_to_analyze (s : State) : bool :=
  String.eqb (trim (description s)) "" && is_none (file s).

(** [handleAnalyze] up to its first [await]. *)
Definition handleAnalyze (s : State) : list Step :=
  if nothing_to_analyze s
  then [SetError "Please provide a description or upload a file"]
  else
    [SetIsAnalyzing true; SetError ""; SetRecommendation Null]
    ++ match file s with
       | Some f =>
           if is_image f then [Invoke (CallWithImage (description s) f)]
           else if is_step f then [ReadText f]
           else [Invoke (CallText (description s) (Some (name f)))]
       | None => [Invoke (CallText (description s) None)]
       end.

(** The [catch] and the [finally]. *)
Definition catch (message : string) : list Step :=
  [ SetError (if String.eqb message ""
              then "Failed to get AI recommendation. Please try again."
              else message);
    SetIsAnalyzing false ].

(** After [await file.text()]; [description] and [f] are those of the
    click. *)
Definition handleAnalyze_text (description : string) (f : File)
           (o : Settled string) : list Step :=
  match o with
  | Fulfilled stepContent =>
      [Invoke (CallText (enhance description stepContent) (Some (name f)))]
  | Failed message => catch message
  end.

(** After the call into geminiApi.ts: [setRecommendation(result.data)], the
    [catch] and the [finally]. *)
Definition handleAnalyze_settled (o : Settled value) : list Step :=
  match o with
  | Fulfilled result =>
      match get result "data" with
      | Some data => [SetRecommendation data; SetIsAnalyzing false]
      | None => catch type_error_message
      end
  | Failed message => catch message
  end.

(** The [disabled] of the analyze button, and which half of the page is
    rendered. *)
Definition analyze_disabled (s : State) : bool :=
  isAnalyzing s || nothing_to_analyze s.

Definition form_shown (s : State) : bool := negb (truthy (recommendation s)).

(** ** The page as a transition system *)

Definition handler (e : Event) (p : Page) : list Step :=
  match e with
  | FileChange selected => handleFileChange selected
  | DescriptionChange d => [SetDescription d]
  | Analyze => handleAnalyze (ui p)
  | TextSettled o =>
      match awaiting p with
      | AwaitingText d f => handleAnalyze_text d f o
      | _ => []
      end
  | Answered o => handleAnalyze_settled o
  | TryAgain => [SetRecommendation Null]
  end.

(** What the rendered page lets happen: the inputs and the analyze button
    are in the form, the button [Try Again] is in the result section, and
    an [await] settles only while the handler is at it. *)
Definition clickable (e : Event) (p : Page) : bool :=
  match e with
  | FileChange _ | DescriptionChange _ => form_shown (ui p)
  | Analyze => form_shown (ui p) && negb (analyze_disabled (ui p))
  | TextSettled _ =>
      match awaiting p with AwaitingText _ _ => true | _ => false end
  | Answered _ =>
      match awaiting p with AwaitingAnswer => true | _ => false end
  | TryAgain => truthy (recommendation (ui p))
  end.

Definition step (e : Event) (p : Page) : Page :=
  let steps := handler e p in
  mkPage (run steps (ui p))
         (match reads steps, calls steps with
          | f :: _, _ => AwaitingText (description (ui p)) f
          | [], _ :: _ => AwaitingAnswer
          | [], [] =>
              match e with
              | TextSettled _ | Answered _ => Idle
              | _ => awaiting p
              end
          end).

(** A session: the page after the events, with the calls made. *)
Fixpoint browse (evs : list Event) (p : Page) (sent : list Call)
  : option (Page * list Call) :=
  match evs with
  | [] => Some (p, sent)
  | e :: rest =>
      if clickable e p
      then browse rest (step e p) (sent ++ calls (handler e p))%list
      else None
  end.

(** The calls a session can make: the image call with an image; the text
    call with the name of a STEP file and a description that holds the
    excerpt of a file; the text call without a file name and a description
    that is not blank. *)
Definition well_formed (c : Call) : Prop :=
  match c with
  | CallWithImage _ imageFile => is_image imageFile = true
  | CallText userDescription (Some fileName) =>
      exists f description stepContent,
        is_image f = false /\ is_step f = true /\ fileName = name f /\
        userDescription = enhance description stepContent
  | CallText userDescription None => trim userDescription <> ""
  end.

(** The state of a page reached through the interface. *)
Record orderly (p : Page) : Prop := {
  file_accepted :
    forall f, file (ui p) = Some f -> is_image f || is_step f = true;
  analyzing_awaits : isAnalyzing (ui p) = true <-> awaiting p <> Idle;
  text_of_step_file :
    forall d f, awaiting p = AwaitingText d f ->
                is_image f = false /\ is_step f = true
}.

End Platform.

(** ** An example session *)

(** A STEP file is chosen and described, the analysis is started, and the
    text of the file arrives. *)
Definition step_file_session : list Event :=
  [ FileChange (Some [mkFile "bracket.step" ""]);
    DescriptionChange "steel bracket under a 500N vertical load";
    Analyze;
    TextSettled (Fulfilled "ISO-10303-21;") ].

End Recommender.

(* ================================================================== *)
(** * Properties of the generator of the specification *)
(* ================================================================== *)

Module GeneratorFacts.
Import Generator.
Local Open Scope nat_scope.

Lemma FeatureNode_induction (P : FeatureNode -> Prop) :
  (forall operation w h d relative children,
      Forall P children -> P (Node operation w h d relative children)) ->
  forall n, P n.
Proof.
  intros H. fix IH 1. intros [operation w h d relative children].
  apply H. induction children as [|c cs IHcs]; constructor;
    [apply IH | exact IHcs].
Qed.

Lemma emit_unfold (on : SketchOn) (self : nat) (operation : OperationKind)
      (w h d : Z) (relative : Z * Z) (children : list FeatureNode) :
  emit on self (Node operation w h d relative children)
  = ((begin_sketch on :: create_rectangle relative w h :: end_sketch
        :: match operation with cut => cut_by d | _ => extrude_by d end
        :: fst (emit_children self children (S self)))%list,
     snd (emit_children self children (S self))).
Proof.
  cbn [emit].
  assert (E : forall cs next,
             (fix walk (cs : list FeatureNode) (next : nat) {struct cs}
                : MacroProgram * nat :=
                match cs with
                | [] => ([], next)
                | c :: rest =>
                    let (ops, next1) := emit (FaceOf self) next c in
                    let (ops', next2) := walk rest next1 in
                    ((ops ++ ops')%list, next2)
                end) cs next
             = emit_children self cs next).
  { induction cs as [|c cs IH]; intros next; [reflexivity|].
    cbn [emit_children]. destruct (emit (FaceOf self) next c) as [ops next1].
    rewrite IH. reflexivity. }
  rewrite E. destruct (emit_children self children (S self)); reflexivity.
Qed.

Lemma blocked_app (ons ons' : list SketchOn) (ops ops' : MacroProgram) :
  blocked ons ops -> blocked ons' ops' ->
  blocked (ons ++ ons')%list (ops ++ ops')%list.
Proof.
  intros H H'. induction H as [|on at_ w h t ons ops Ht _ IH]; [exact H'|].
  cbn. now constructor.
Qed.

Lemma blocked_terminator (ons : list SketchOn) (ops : MacroProgram) :
  blocked ons ops ->
  forall k, k < List.length ons -> terminator_index k ops = Some (4 * k + 3).
Proof.
  induction 1 as [|on at_ w h t ons ops Ht _ IH]; intros k Hk;
    [cbn in Hk; lia|].
  cbn [terminator_index terminates]. rewrite Ht.
  destruct k as [|k]; [reflexivity|].
  cbn [List.length] in Hk. rewrite (IH k) by lia. cbn [option_map].
  f_equal. lia.
Qed.

Lemma blocked_sketch (ons : list SketchOn) (ops : MacroProgram) :
  blocked ons ops ->
  forall i t, nth_error ops i = Some (begin_sketch t) ->
              exists c, i = 4 * c /\ nth_error ons c = Some t.
Proof.
  induction 1 as [|on at_ w h t0 ons ops Ht _ IH]; intros i t Hi.
  - destruct i; discriminate Hi.
  - destruct i as [|[|[|[|i]]]]; cbn [nth_error] in Hi.
    + injection Hi as <-. now exists 0.
    + discriminate Hi.
    + discriminate Hi.
    + injection Hi as ->. discriminate Ht.
    + destruct (IH i t Hi) as (c & -> & Hc). exists (S c). split; [lia | exact Hc].
Qed.

Lemma parents_before_app (base : nat) (ons ons' : list SketchOn) :
  parents_before base ons ->
  parents_before (base + List.length ons) ons' ->
  parents_before base (ons ++ ons')%list.
Proof.
  intros H H' c t Hc.
  destruct (Nat.lt_ge_cases c (List.length ons)) as [Hlt | Hge].
  - rewrite nth_error_app1 in Hc by exact Hlt. exact (H c t Hc).
  - rewrite nth_error_app2 in Hc by exact Hge.
    destruct (H' _ t Hc) as (p & -> & Hp). exists p. split; [reflexivity | lia].
Qed.

(** The program of a subtree: one block per node, the first on the target
    given, every other on a face of a node numbered before it. *)
Lemma emit_blocks (n : FeatureNode) :
  forall on self,
  exists ons,
    blocked (on :: ons) (fst (emit on self n))
    /\ snd (emit on self n) = S self + List.length ons
    /\ parents_before (S self) ons.
Proof.
  induction n as [operation w h d relative children IH]
    using FeatureNode_induction.
  intros on self. rewrite emit_unfold. cbn [fst snd].
  assert (Hchildren :
            forall next, self < next ->
            exists ons,
              blocked ons (fst (emit_children self children next))
              /\ snd (emit_children self children next) = next + List.length ons
              /\ parents_before next ons).
  { clear on. induction IH as [|c cs Hc _ IHcs]; intros next Hnext.
    - exists []. cbn. split; [constructor | split; [lia|]].
      intros i t Hi. destruct i; discriminate Hi.
    - cbn [emit_children].
      destruct (Hc (FaceOf self) next) as (ons1 & Hb1 & Hn1 & Hp1).
      destruct (emit (FaceOf self) next c) as [ops next1]. cbn [fst snd] in *.
      destruct (IHcs next1) as (ons2 & Hb2 & Hn2 & Hp2); [lia|].
      destruct (emit_children self cs next1) as [ops' next2]. cbn [fst snd] in *.
      exists ((FaceOf self :: ons1) ++ ons2)%list.
      split; [apply blocked_app; assumption|].
      split; [rewrite length_app; cbn [List.length]; lia|].
      apply parents_before_app.
      + intros i t Hi. destruct i as [|i]; cbn [nth_error] in Hi.
        * injection Hi as <-. exists self. split; [reflexivity | lia].
        * destruct (Hp1 i t Hi) as (p & -> & Hp). exists p.
          split; [reflexivity | lia].
      + cbn [List.length]. subst next1.
        replace (next + S (List.length ons1)) with (S next + List.length ons1)
          by lia.
        exact Hp2. }
  destruct (Hchildren (S self)) as (ons & Hb & Hn & Hp); [lia|].
  exists ons. split; [|split; assumption].
  constructor; [destruct operation; reflexivity | exact Hb].
Qed.

(** The generator keeps the ordering property: in the program of every
    feature tree, a sketch on a face of a node comes after the extrude or
    cut of that node. *)
Lemma generate_ordering (tree : FeatureNode) :
  ordering_property (generate tree).
Proof.
  unfold generate.
  destruct (emit_blocks tree BasePlane 0) as (ons & Hb & _ & Hp).
  intros i parent Hi.
  destruct (blocked_sketch _ _ Hb i _ Hi) as (c & -> & Hc).
  destruct c as [|c]; [discriminate Hc|]. cbn [nth_error] in Hc.
  destruct (Hp c _ Hc) as (p & Hp' & Hlt). injection Hp' as ->.
  exists (4 * p + 3). split; [|lia].
  apply (blocked_terminator _ _ Hb). cbn [List.length].
  assert (c < List.length ons) by (apply nth_error_Some; congruence). lia.
Qed.

Example scenario_B_program :
  generate scenario_B_tree =
  [ begin_sketch BasePlane; create_rectangle (0, 0)%Z 40 60; end_sketch;
    extrude_by 100;
    begin_sketch (FaceOf 0); create_rectangle (5, 15)%Z 30 40; end_sketch;
    cut_by 100 ].
Proof. reflexivity. Qed.

Example three_level_program :
  map (fun op => match op with begin_sketch on => [on] | _ => [] end)
      (generate three_level_tree)
  = [ [BasePlane]; []; []; []; [FaceOf 0]; []; []; []; [FaceOf 1]; []; []; [];
      [FaceOf 0]; []; []; [] ].
Proof. reflexivity. Qed.

Example misordered_is_rejected : ~ ordering_property misordered.
Proof.
  intros H. destruct (H 4 2 eq_refl) as (j & Hj & Hlt).
  cbn in Hj. injection Hj as <-. lia.
Qed.

End GeneratorFacts.

(* ================================================================== *)
(** * Properties of the macros *)
(* ================================================================== *)

Module SolidWorksFacts.
Import SolidWorks.
Local Open Scope Q_scope.

Lemma macro_of_nested :
  macro_of Nested.CreateModelFromJSON =
  [ begin_sketch (OnPlane "Front Plane");
    create_rectangle 0 0 40 60;
    create_rectangle 5 15 30 30;
    end_sketch;
    extrude 100 ].
Proof. vm_compute. reflexivity. Qed.

Lemma macro_of_stacking :
  macro_of Stacking.CreateModelFromJSON =
  [ begin_sketch (OnPlane "Front Plane");
    create_rectangle (-1 # 20) (-1 # 20) 0.1 0.1;
    end_sketch;
    extrude 0.1;
    begin_sketch (OnPlane "Front Plane");
    create_rectangle 0 0 0.1 0.1;
    end_sketch;
    extrude 0.1 ].
Proof. vm_compute. reflexivity. Qed.

Lemma macro_of_cube :
  macro_of BasicCube.CreateSimpleCube =
  [ begin_sketch NoSelection;
    create_rectangle (-1 # 20) (-1 # 20) 0.1 0.1;
    end_sketch;
    extrude 0.1 ].
Proof. vm_compute. reflexivity. Qed.

Lemma macro_of_cuboid (template : string) :
  macro_of (Cuboid.CreateCuboid template) =
  [ begin_sketch (OnPlane "Front Plane");
    create_rectangle (-50) (-30) 100 60;
    end_sketch;
    extrude 40 ].
Proof. vm_compute. reflexivity. Qed.

(** *** C1 *)

(** C1, as stated, fails: the macro of the reference scenario does not draw
    a 30 x 40 inner rectangle. *)
Lemma nested_macro_inner_is_not_30_by_40 :
  ~ reference_model (macro_of Nested.CreateModelFromJSON) 30 40.
Proof.
  intros (outer & inner & d & Hr & _ & _ & _ & _ & _ & Hh & _).
  rewrite macro_of_nested in Hr. cbn in Hr.
  injection Hr as _ <-. vm_compute in Hh. discriminate Hh.
Qed.

(** C1 (amended): for the reference scenario the macro draws an outer
    rectangle of width 40 and height 60, extrudes the sketch to depth 100,
    and draws one inner rectangle, of dimensions 30 x 30, at offset (5,15)
    from the origin of the outer rectangle. *)
Theorem nested_macro_draws_reference_model :
  reference_model (macro_of Nested.CreateModelFromJSON) 30 30.
Proof.
  exists (mkRect 0 0 40 60), (mkRect 5 15 30 30), 100.
  rewrite macro_of_nested. cbn. repeat (split; [reflexivity|]). reflexivity.
Qed.

(** *** C2 *)

(** C2, as stated, fails: the nested-rectangle macro draws two rectangles
    in its root sketch, so its third operation is a second create_rectangle
    and not end_sketch. *)
Lemma nested_macro_root_sketch_has_two_rectangles :
  ~ Forall (fun p => follows_root_sequence (macro_of p) = true)
           emitted_programs.
Proof.
  intros H. unfold emitted_programs in H.
  apply Forall_inv in H. rewrite macro_of_nested in H. discriminate H.
Qed.

(** C2 (amended): every macro starts with begin_sketch, one or more
    create_rectangle, end_sketch, extrude(depth); the macros other than the
    nested-rectangle one have exactly one create_rectangle there.  In the
    macros that select a plane before they insert the sketch, the root
    sketch begins on the base plane.  For every operation that references a
    parent's face, its index in the program is strictly greater than the
    index of that parent's extrude or cut: no operation of the macros
    references a face (the second feature of the stacking macro, sketched
    on the Front Plane, starts after the extrude of the first, which is at
    index 3), and the generator of the specification keeps the property for
    every feature tree. *)
Theorem macros_follow_root_sequence_and_ordering :
  Forall (fun p => root_order_multi (macro_of p) = true) emitted_programs
  /\ macro_of Nested.CreateModelFromJSON =
       [ begin_sketch (OnPlane "Front Plane");
         create_rectangle 0 0 40 60;
         create_rectangle 5 15 30 30;
         end_sketch;
         extrude 100 ]
  /\ Forall (fun p => root_order (macro_of p) = true)
            [ Stacking.CreateModelFromJSON; BasicCube.CreateSimpleCube ]
  /\ Forall (fun p => begins_on_base_plane (macro_of p) = true)
            [ Nested.CreateModelFromJSON; Stacking.CreateModelFromJSON ]
  /\ (forall template,
        follows_root_sequence (macro_of (Cuboid.CreateCuboid template)) = true)
  /\ follows_root_sequence (macro_of Stacking.CreateModelFromJSON) = true
  /\ (exists root child,
        macro_of Stacking.CreateModelFromJSON = (root ++ child)%list /\
        features (macro_of Stacking.CreateModelFromJSON) = [root; child] /\
        List.length root = 4%nat /\
        nth_error root 3 = Some (extrude 0.1))
  /\ Forall (fun p =>
               forallb (fun op => negb (references_parent_face op)) (macro_of p)
               = true)
            emitted_programs
  /\ (forall tree : Generator.FeatureNode,
        Generator.ordering_property (Generator.generate tree)).
Proof.
  split; [| split; [| split; [| split; [| split; [| split; [| split; [| split]]]]]]].
  - unfold emitted_programs.
    repeat (apply Forall_cons; [vm_compute; reflexivity |]). apply Forall_nil.
  - exact macro_of_nested.
  - repeat (apply Forall_cons; [vm_compute; reflexivity |]). apply Forall_nil.
  - repeat (apply Forall_cons; [vm_compute; reflexivity |]). apply Forall_nil.
  - intros template. rewrite macro_of_cuboid. reflexivity.
  - rewrite macro_of_stacking. reflexivity.
  - rewrite macro_of_stacking.
    exists [ begin_sketch (OnPlane "Front Plane");
             create_rectangle (-1 # 20) (-1 # 20) 0.1 0.1; end_sketch; extrude 0.1 ],
           [ begin_sketch (OnPlane "Front Plane");
             create_rectangle 0 0 0.1 0.1; end_sketch; extrude 0.1 ].
    repeat (split; [reflexivity|]). reflexivity.
  - unfold emitted_programs.
    repeat (apply Forall_cons; [vm_compute; reflexivity |]). apply Forall_nil.
  - exact GeneratorFacts.generate_ordering.
Qed.

(** *** C5 *)

(** C5, as stated, fails: the second feature of the stacking macro is
    sketched on the Front Plane, not on a face of the first. *)
Lemma stacking_child_is_not_on_a_face :
  ~ children_on_parent_face (macro_of Stacking.CreateModelFromJSON).
Proof.
  unfold children_on_parent_face. rewrite macro_of_stacking. cbn.
  intros H. apply Forall_inv in H.
  destruct H as (face & x & y & w & h & last & Heq & _).
  discriminate Heq.
Qed.

(** C5 (amended): the non-root feature of the stacking macro begins a
    sketch on the Front Plane (the plane of the root), creates its rectangle
    at (0,0) in the coordinates of that sketch, ends the sketch and emits an
    extrude with the arguments of the root's extrude.  The inner rectangle
    of the nested macro is drawn in the root sketch: that macro is a single
    feature.  No macro sketches on a face, none emits a cut, and every
    extrusion has the same direction arguments. *)
Theorem stacking_child_is_sketched_on_front_plane :
  tl (features (macro_of Stacking.CreateModelFromJSON)) =
    [ [ begin_sketch (OnPlane "Front Plane");
        create_rectangle 0 0 0.1 0.1;
        end_sketch;
        extrude 0.1 ] ]
  /\ (exists a, extrusion_args Stacking.CreateModelFromJSON = [a; a])
  /\ features (macro_of Nested.CreateModelFromJSON) =
       [ macro_of Nested.CreateModelFromJSON ]
  /\ Forall (fun p =>
               forallb (fun op => negb (references_parent_face op)
                                  && negb (is_cut op)) (macro_of p) = true
               /\ forallb boss_direction (extrusion_args p) = true)
            emitted_programs.
Proof.
  split; [rewrite macro_of_stacking; reflexivity | split; [| split]].
  - eexists. reflexivity.
  - rewrite macro_of_nested. reflexivity.
  - unfold emitted_programs.
    repeat (apply Forall_cons; [split; vm_compute; reflexivity |]).
    apply Forall_nil.
Qed.

End SolidWorksFacts.

(* ================================================================== *)
(** * Properties of the DimensionResult interface *)
(* ================================================================== *)

Module SchemaFacts.
Import Schema.

(** C3: the output structure consumed by the pages is an object whose
    [root] carries a [type] and an [operations] array; every entry of the
    array has a [type], a [dimensions] record with exactly the fields width,
    height and depth, and a [position] record with exactly the fields x, y
    and z.  Both declarations of the interface have that shape. *)
Theorem dimension_result_has_output_structure :
  Forall output_structure
         [ DimensionExtractorPage.DimensionResult; AppPage.DimensionResult ].
Proof.
  repeat (apply Forall_cons;
          [do 4 eexists; cbn; repeat (split; [reflexivity|]); reflexivity |]).
  apply Forall_nil.
Qed.

Lemma declarations_agree :
  DimensionExtractorPage.DimensionResult = AppPage.DimensionResult.
Proof. reflexivity. Qed.

End SchemaFacts.

(* ================================================================== *)
(** * Properties of the DimensionExtractor component *)
(* ================================================================== *)

Module ExtractorFacts.
Import Schema Extractor ExtractorUi.

Lemma or_else_truthy (a : option string) (b : string) :
  b <> "" -> or_else a b <> "".
Proof.
  intros Hb. destruct a as [s|]; cbn; [|exact Hb].
  destruct (String.eqb_spec s ""); cbn; [exact Hb | assumption].
Qed.

Lemma message_or_default_nonempty (err : AxiosError) :
  message_or_default err <> "".
Proof. unfold message_or_default. apply or_else_truthy. discriminate. Qed.

Lemma extraction_error_truthy (err : AxiosError) :
  Js.truthy (extraction_error err) = true.
Proof.
  unfold extraction_error.
  destruct (Js.truthy (response_data_error err)) eqn:H; [exact H|].
  cbn [Js.truthy].
  destruct (String.eqb_spec (message_or_default err) "") as [E|_];
    [destruct (message_or_default_nonempty err E) | reflexivity].
Qed.

Lemma extraction_error_source (err : AxiosError) :
  extraction_error err = response_data_error err
  \/ extraction_error err = Js.Str (message err)
  \/ extraction_error err
     = Js.Str "An error occurred while processing the images".
Proof.
  unfold extraction_error, message_or_default, or_else.
  destruct (Js.truthy (response_data_error err)); [now left|].
  cbn. destruct (String.eqb (message err) ""); cbn; auto.
Qed.

(** When the server's error field is what the cast declares, the error set
    is a message. *)
Lemma declared_error_is_message (err : AxiosError) :
  declared_error (response_data_error err) = true ->
  is_message (extraction_error err) = true.
Proof.
  unfold extraction_error. intros Hd.
  destruct (Js.truthy (response_data_error err)) eqn:Ht.
  - destruct (response_data_error err) as [| |b|n|text|items|props];
      cbn in Hd, Ht |- *; try discriminate Ht; try exact Ht;
      try (rewrite Ht in Hd; discriminate Hd); discriminate Hd.
  - cbn [is_message].
    destruct (String.eqb_spec (message_or_default err) "") as [E|_];
      [destruct (message_or_default_nonempty err E) | reflexivity].
Qed.

Lemma allFilesSelected_iff (s : State) :
  allFilesSelected s = true <->
  exists t f d, files s = mkFiles (Some t) (Some f) (Some d).
Proof.
  unfold allFilesSelected, values, entries. cbn.
  destruct (files s) as [[t|] [f|] [d|]]; cbn; split;
    try discriminate; try (intros (? & ? & ? & H); discriminate H).
  - intros _. now exists t, f, d.
  - reflexivity.
Qed.

(** C6: the submit button is enabled exactly when the top, front and side
    view files are all non-null and no extraction is in flight; a submission
    made then posts all three views. *)
Theorem submit_enabled_iff_all_views (s : State) :
  (submit_disabled s = false <->
   (top_view (files s) <> None /\ front_view (files s) <> None /\
    side_view (files s) <> None) /\ isLoading s = false)
  /\
  (submit_disabled s = false ->
   exists t f d s',
     files s = mkFiles (Some t) (Some f) (Some d) /\
     issued (handleSubmit s) s =
       [ (s', PostExtractDimensions
                [("top_view", t); ("front_view", f); ("side_view", d)]) ]).
Proof.
  assert (Hd : submit_disabled s = false <->
               allFilesSelected s = true /\ isLoading s = false).
  { unfold submit_disabled. rewrite orb_false_iff, negb_false_iff. reflexivity. }
  split.
  - rewrite Hd, allFilesSelected_iff. split.
    + intros [(t & f & d & ->) Hl]. cbn. repeat split; try discriminate; exact Hl.
    + intros [(Ht & Hf & Hs) Hl]. split; [|exact Hl].
      destruct (files s) as [[t|] [f|] [d|]]; cbn in *; try contradiction.
      now exists t, f, d.
  - intros H. apply Hd in H as [H _]. apply allFilesSelected_iff in H.
    destruct H as (t & f & d & Hf). exists t, f, d.
    unfold handleSubmit. rewrite Hf. cbn. eexists. split; reflexivity.
Qed.

(** A page with its three views chosen. *)
Lemma submit_enabled_iff_all_views_witness :
  submit_disabled three_views = false /\
  exists t f d s',
    files three_views = mkFiles (Some t) (Some f) (Some d) /\
    issued (handleSubmit three_views) three_views =
      [ (s', PostExtractDimensions
               [("top_view", t); ("front_view", f); ("side_view", d)]) ].
Proof.
  split; [reflexivity|].
  apply (proj2 (submit_enabled_iff_all_views three_views)). reflexivity.
Defined.

(** C8, as stated, fails: a submission does not start from a fresh
    context.  Made while a script generation is pending, it leaves
    [isGeneratingVba] set and the generation request awaited, and the script
    of the earlier invocation is stored when it arrives, while the new
    extraction is still loading. *)
Lemma submission_keeps_pending_generation :
  ~ fresh_context (step Submit generation_pending)
  /\ isGeneratingVba (ui (step Submit generation_pending)) = true
  /\ generating (step Submit generation_pending) = 1%nat
  /\ isLoading
       (ui (step (GenerationSettled (Resolved "Sub CreateModelFromJSON()"))
                 (step Submit generation_pending))) = true
  /\ vbaScript
       (ui (step (GenerationSettled (Resolved "Sub CreateModelFromJSON()"))
                 (step Submit generation_pending)))
     = Some "Sub CreateModelFromJSON()".
Proof.
  split; [|vm_compute; repeat split].
  intros (_ & _ & _ & _ & H & _). vm_compute in H. discriminate H.
Qed.

(** C8 (amended): at the start of every submission the outputs of earlier
    invocations (result, error, vbaScript, vbaError) are reset to null
    before the one request of the submission is issued.  The selected
    files, the previews and [isGeneratingVba] are left as they are, and a
    script generation that is pending stays pending: its answer is stored
    when it arrives, the script or the error, while the new extraction is
    loading. *)
Theorem submission_resets_previous_outputs :
  (forall s : State,
      exists s',
        issued (handleSubmit s) s =
          [ (s', PostExtractDimensions (formData_of (files s))) ] /\
        result s' = None /\ error s' = Js.Null /\
        vbaScript s' = None /\ vbaError s' = None /\
        isLoading s' = true /\ files s' = files s /\
        previews s' = previews s /\
        isGeneratingVba s' = isGeneratingVba s /\
        run (handleSubmit s) s = s')
  /\ (forall p : Page,
         generating (step Submit p) = generating p
         /\ extracting (step Submit p) = S (extracting p))
  /\ (forall (p : Page) (o : Outcome string) p' log log',
         play [Submit; GenerationSettled o] p log = Some (p', log') ->
         isLoading (ui p') = true /\ result (ui p') = None /\
         isGeneratingVba (ui p') = false /\
         match o with
         | Resolved script =>
             vbaScript (ui p') = Some script /\ vbaError (ui p') = None
         | Rejected err =>
             vbaScript (ui p') = None /\
             vbaError (ui p') = Some (generation_error_message err)
         end).
Proof.
  split; [|split].
  - intros s. eexists. cbn. repeat (split; [reflexivity|]). reflexivity.
  - intros [s ne ng]. cbn. split; [apply Nat.add_0_r | apply Nat.add_1_r].
  - intros [s ne ng] o p' log log' H. cbn [play possible] in H.
    destruct (0 <? _)%nat; [|discriminate H].
    injection H as <- _.
    destruct o as [script|err]; cbn; repeat split.
Qed.

(** A submission made while a generation is pending, and the script that
    arrives after it. *)
Lemma submission_resets_previous_outputs_witness :
  exists p',
    play [Submit; GenerationSettled (Resolved "Sub CreateModelFromJSON()")]
         generation_pending []
    = Some (p', [ExtractionRequested; GenerationCompleted])
    /\ isLoading (ui p') = true /\ result (ui p') = None
    /\ isGeneratingVba (ui p') = false
    /\ vbaScript (ui p') = Some "Sub CreateModelFromJSON()"
    /\ vbaError (ui p') = None.
Proof.
  assert (H : play [Submit; GenerationSettled (Resolved "Sub CreateModelFromJSON()")]
                   generation_pending []
              = Some (step (GenerationSettled (Resolved "Sub CreateModelFromJSON()"))
                           (step Submit generation_pending),
                      [ExtractionRequested; GenerationCompleted]))
    by (vm_compute; reflexivity).
  eexists. split; [exact H|].
  exact (proj2 (proj2 submission_resets_previous_outputs) _ _ _ _ _ H).
Defined.

(** *** Logs of the page move forward *)

Lemma is_subseq_nil (ys : list Mark) : is_subseq [] ys = true.
Proof. destruct ys; reflexivity. Qed.

Lemma mark_eqb_refl (m : Mark) : mark_eqb m m = true.
Proof. destruct m; reflexivity. Qed.

Lemma is_subseq_app_r (xs ys l : list Mark) :
  is_subseq xs ys = true -> is_subseq xs (ys ++ l) = true.
Proof.
  revert xs. induction ys as [|y ys IH]; intros xs H.
  - destruct xs; [apply is_subseq_nil | discriminate H].
  - cbn in *. destruct xs as [|x xs]; [reflexivity|].
    destruct (mark_eqb x y); apply IH, H.
Qed.

Lemma is_subseq_snoc (xs ys : list Mark) (m : Mark) :
  is_subseq xs ys = true -> is_subseq (xs ++ [m]) (ys ++ [m]) = true.
Proof.
  revert xs. induction ys as [|y ys IH]; intros xs H.
  - destruct xs; [|discriminate H]. cbn. now rewrite mark_eqb_refl.
  - destruct xs as [|x xs].
    + cbn. destruct (mark_eqb m y).
      * apply is_subseq_nil.
      * apply (IH [] (is_subseq_nil ys)).
    + cbn in *. destruct (mark_eqb x y).
      * apply IH, H.
      * apply (IH (x :: xs) H).
Qed.

Lemma passed_next (k : nat) (m : Mark) (log : list Mark) :
  nth_error stages k = Some m ->
  passed k log = true -> passed (S k) (log ++ [m]) = true.
Proof.
  unfold passed. intros Hm H.
  do 4 (destruct k as [|k]; [injection Hm as <-; apply (is_subseq_snoc _ _ _ H)|]).
  destruct k; discriminate Hm.
Qed.

Lemma forward_nil : forward [].
Proof. intros pre m post H. destruct pre; discriminate H. Qed.

Lemma forward_snoc (log : list Mark) (m : Mark) :
  forward log -> passed (needs m) log = true -> forward (log ++ [m]).
Proof.
  intros Hf Hm pre m' post Heq.
  destruct post as [|x post _] using rev_ind.
  - apply app_inj_tail in Heq as [-> ->]. exact Hm.
  - change (pre ++ m' :: post ++ [x])%list
      with (pre ++ (m' :: post) ++ [x])%list in Heq.
    rewrite app_assoc in Heq. apply app_inj_tail in Heq as [Heq _].
    exact (Hf pre m' post Heq).
Qed.

Lemma consistent_start : consistent start [].
Proof.
  split; cbn; try (intros H; (lia || congruence)). apply forward_nil.
Qed.

Lemma consistent_step (e : Event) (p : Page) (log : list Mark) :
  consistent p log -> possible e p = true ->
  consistent (step e p) (log ++ marks e (ui p)).
Proof.
  intros [Hf He Hr Hg Hs] Hp.
  destruct p as [[fs ld res err pv vs ve gv] ne ng]. cbn in *.
  destruct e as [n sel | n loaded | | o | | o | ]; cbn in Hp.
  - (* FileChange *)
    rewrite app_nil_r.
    destruct sel as [[|f sel]|]; cbn; split; cbn; try assumption;
      rewrite ?Nat.add_0_r; assumption.
  - (* Onload *)
    rewrite app_nil_r.
    unfold step, handler, onload, truthy.
    destruct loaded as [d|]; [destruct (String.eqb d "")|];
      cbn; split; cbn; rewrite ?Nat.add_0_r; assumption.
  - (* Submit *)
    cbn. split; cbn.
    + apply forward_snoc; [exact Hf | apply is_subseq_nil].
    + intros _. apply (passed_next 0 ExtractionRequested);
        [reflexivity | apply is_subseq_nil].
    + congruence.
    + rewrite Nat.add_0_r. intros H. apply is_subseq_app_r, Hg, H.
    + discriminate.
  - (* ExtractionSettled *)
    assert (Hpos : (0 < ne)%nat) by (destruct ne; [discriminate Hp | lia]).
    specialize (He Hpos).
    destruct o as [data | e]; cbn; split; cbn;
      rewrite ?app_nil_r, ?Nat.add_0_r; try assumption.
    + apply forward_snoc; assumption.
    + intros _. apply is_subseq_app_r, He.
    + intros _. apply (passed_next 1 ExtractionCompleted); [reflexivity | exact He].
    + intros H. apply is_subseq_app_r, Hg, H.
    + intros H. apply is_subseq_app_r, Hs, H.
    + intros _. exact He.
  - (* GenerateVba *)
    destruct res as [r|]; cbn.
    + assert (H2 : passed 2 log = true) by (apply Hr; discriminate).
      split; cbn.
      * apply forward_snoc; assumption.
      * rewrite Nat.add_0_r. intros H. apply is_subseq_app_r, He, H.
      * intros _. apply is_subseq_app_r, H2.
      * intros _. apply (passed_next 2 GenerationRequested); [reflexivity | exact H2].
      * discriminate.
    + rewrite app_nil_r. split; cbn; rewrite ?Nat.add_0_r; assumption.
  - (* GenerationSettled *)
    assert (Hpos : (0 < ng)%nat) by (destruct ng; [discriminate Hp | lia]).
    specialize (Hg Hpos).
    destruct o as [data | e]; cbn; split; cbn;
      rewrite ?app_nil_r, ?Nat.add_0_r; try assumption.
    + apply forward_snoc; assumption.
    + intros H. apply is_subseq_app_r, He, H.
    + intros H. apply is_subseq_app_r, Hr, H.
    + intros _. apply is_subseq_app_r, Hg.
    + intros _. apply (passed_next 3 GenerationCompleted); [reflexivity | exact Hg].
    + intros _. exact Hg.
  - (* DownloadVba *)
    unfold step, marks, requests, handler, handleDownloadVba, truthy in *.
    cbn [ui vbaScript] in *.
    destruct vs as [script|]; cbn.
    + destruct (String.eqb script "") eqn:E; cbn.
      2: { assert (H4 : passed 4 log = true) by (apply Hs; reflexivity).
        split; cbn; rewrite ?Nat.add_0_r.
        -- apply forward_snoc; assumption.
        -- intros H. apply is_subseq_app_r, He, H.
        -- intros H. apply is_subseq_app_r, Hr, H.
        -- intros H. apply is_subseq_app_r, Hg, H.
        -- intros _. apply is_subseq_app_r, H4. }
      rewrite app_nil_r.
      split; cbn; rewrite ?Nat.add_0_r, ?E; try assumption; discriminate.
    + rewrite app_nil_r. split; cbn; rewrite ?Nat.add_0_r; assumption.
Qed.

Lemma consistent_play (evs : list Event) :
  forall p log p' log',
    consistent p log -> play evs p log = Some (p', log') -> consistent p' log'.
Proof.
  induction evs as [|e evs IH]; intros p log p' log' Hc Hplay; cbn in Hplay.
  - injection Hplay as <- <-. exact Hc.
  - destruct (possible e p) eqn:Hp; [|discriminate Hplay].
    exact (IH _ _ _ _ (consistent_step e p log Hc Hp) Hplay).
Qed.

Lemma play_app (l1 l2 : list Event) :
  forall p log,
    play (l1 ++ l2) p log =
    match play l1 p log with
    | Some (p1, log1) => play l2 p1 log1
    | None => None
    end.
Proof.
  induction l1 as [|e l1 IH]; intros p log; cbn; [reflexivity|].
  destruct (possible e p); [apply IH | reflexivity].
Qed.

(** Only a completed extraction sets the result. *)
Lemma result_stays_null_step (e : Event) (p : Page) :
  completes_extraction e = false ->
  result (ui p) = None -> result (ui (step e p)) = None.
Proof.
  intros He Hr. destruct p as [[fs ld res err pv vs ve gv] ne ng].
  cbn in Hr. subst res.
  destruct e as [n [[|f sel]|] | n [d|] | | [data|e] | | [data|e] | ];
    try discriminate He; try reflexivity.
  - unfold step, handler, onload, truthy. destruct (String.eqb d ""); reflexivity.
  - unfold step, handler, handleDownloadVba, truthy. cbn [ui vbaScript].
    destruct vs as [script|]; [destruct (String.eqb script "")|]; reflexivity.
Qed.

Lemma result_stays_null (mid : list Event) :
  forall p log p' log',
    forallb (fun e => negb (completes_extraction e)) mid = true ->
    result (ui p) = None ->
    play mid p log = Some (p', log') -> result (ui p') = None.
Proof.
  induction mid as [|e mid IH]; intros p log p' log' Hmid Hr Hplay; cbn in *.
  - injection Hplay as <- _. exact Hr.
  - apply andb_true_iff in Hmid as [He Hmid]. apply negb_true_iff in He.
    destruct (possible e p); [|discriminate Hplay].
    exact (IH _ _ _ _ Hmid (result_stays_null_step e p He Hr) Hplay).
Qed.

(** C4, as stated, fails: when the body of the failed response has an
    object where the error text is expected, the error cell is set to that
    object, not to a message. *)
Lemma structured_error_sets_no_message :
  error (run (handleSubmit_settled (Rejected structured_error))
             (run (handleSubmit three_views) three_views))
  = Js.Obj [("code", Js.Num (Js.Finite 1))]
  /\ ~ failure_reported
         (run (handleSubmit_settled (Rejected structured_error))
              (run (handleSubmit three_views) three_views)).
Proof.
  split; [reflexivity|]. intros (_ & _ & H). discriminate H.
Qed.

(** C4 (amended): after a failed extract-dimensions request the result is
    null, no result (and so no script) is displayed, loading is over, and
    the error cell is set to a truthy value: the error field of the server's
    response when it is truthy, else the error's message when it is not
    empty, else the fixed text.  That value is a message describing the
    failure whenever the server's error field is a string or is not there,
    as the cast to [AxiosError<{ error: string }>] declares it.  The same
    holds whatever else happens on the page between the submission and the
    failure of its request. *)
Theorem failed_extraction_leaves_no_result :
  (forall (s : State) (err : AxiosError),
      let s' := run (handleSubmit_settled (Rejected err)) (run (handleSubmit s) s) in
      result s' = None /\
      result_shown s' = false /\
      vba_shown s' = false /\
      error s' = extraction_error err /\
      (error s' = response_data_error err
       \/ error s' = Js.Str (message err)
       \/ error s' = Js.Str "An error occurred while processing the images") /\
      error_shown s' = true /\
      (declared_error (response_data_error err) = true ->
       failure_reported s') /\
      isLoading s' = false)
  /\
  (forall (p : Page) (mid : list Event) (err : AxiosError) p' log log',
      forallb (fun e => negb (completes_extraction e)) mid = true ->
      play (Submit :: mid ++ [ExtractionSettled (Rejected err)]) p log
        = Some (p', log') ->
      result (ui p') = None /\
      result_shown (ui p') = false /\
      vba_shown (ui p') = false /\
      error (ui p') = extraction_error err /\
      error_shown (ui p') = true /\
      (declared_error (response_data_error err) = true ->
       failure_reported (ui p'))).
Proof.
  split.
  - intros s err. cbn. repeat (split; [reflexivity|]).
    split; [apply extraction_error_source|].
    split; [apply extraction_error_truthy|].
    split; [|reflexivity].
    intros Hd. repeat split. cbn. apply declared_error_is_message, Hd.
  - intros p mid err p' log log' Hmid Hplay.
    cbn [play possible] in Hplay. rewrite play_app in Hplay.
    destruct (play mid (step Submit p) (log ++ marks Submit (ui p)))
      as [[p1 log1]|] eqn:Hmidplay; [|discriminate Hplay].
    assert (Hr : result (ui p1) = None).
    { apply (result_stays_null mid _ _ _ _ Hmid) in Hmidplay; [exact Hmidplay|].
      reflexivity. }
    cbn [play] in Hplay.
    destruct (possible _ p1); [|discriminate Hplay].
    injection Hplay as <- _.
    destruct p1 as [[fs ld res e0 pv vs ve gv] ne ng]. cbn in Hr. subst res.
    cbn. repeat (split; [reflexivity|]).
    split; [apply extraction_error_truthy|].
    intros Hd. repeat split. cbn. apply declared_error_is_message, Hd.
Qed.

(** A submission answered by a 400 whose body has an error text, with
    clicks on both buttons in between. *)
Lemma failed_extraction_leaves_no_result_witness :
  exists p',
    result (ui p') = None /\
    result_shown (ui p') = false /\
    vba_shown (ui p') = false /\
    error (ui p') = Js.Str "No shapes detected in front view" /\
    error_shown (ui p') = true /\
    failure_reported (ui p').
Proof.
  eexists.
  destruct (proj2 failed_extraction_leaves_no_result
                  (mkPage three_views 0 0) [GenerateVba; DownloadVba] bad_request
                  _ [] _ eq_refl eq_refl)
    as (H1 & H2 & H3 & H4 & H5 & H6).
  repeat (split; [eassumption|]). apply H6. reflexivity.
Defined.

(** C7: code generation is attempted only when an extraction result exists
    ([handleGenerateVba] does nothing when [result] is null, and the request
    it issues carries the result), download only when a generated script
    exists ([handleDownloadVba] does nothing when [vbaScript] is null), and
    in every run of the page from its initial state the stages come in
    order: a generation request after a completed extraction, a completed
    generation after its request, a download after a completed
    generation. *)
Theorem generation_and_download_never_skip_a_stage :
  (forall s, result s = None -> handleGenerateVba s = [])
  /\ (forall s, vbaScript s = None -> handleDownloadVba s = [])
  /\ (forall s r, In (Issue r) (handleGenerateVba s) ->
                 exists res, result s = Some res /\ r = PostConvertClean res)
  /\ (forall s, handleDownloadVba s <> [] ->
               exists script, vbaScript s = Some script /\ script <> "")
  /\ (forall evs p log, play evs start [] = Some (p, log) -> forward log).
Proof.
  split; [|split; [|split; [|split]]].
  - intros s H. unfold handleGenerateVba. now rewrite H.
  - intros s H. unfold handleDownloadVba. now rewrite H.
  - intros s r. unfold handleGenerateVba.
    destruct (result s) as [res|]; [|intros []].
    intros [H | [H | [H | [H | []]]]]; try discriminate H.
    injection H as <-. now exists res.
  - intros s. unfold handleDownloadVba, truthy.
    destruct (vbaScript s) as [script|]; [|congruence].
    destruct (String.eqb_spec script ""); cbn; [congruence|].
    intros _. now exists script.
  - intros evs p log H.
    exact (log_forward _ _ (consistent_play evs _ _ _ _ consistent_start H)).
Qed.

(** The initial page, and a run through all the stages. *)
Lemma generation_and_download_never_skip_a_stage_witness :
  handleGenerateVba initial = [] /\
  handleDownloadVba initial = [] /\
  forward [ ExtractionRequested; ExtractionCompleted; GenerationRequested;
            GenerationCompleted; Downloaded ].
Proof.
  destruct generation_and_download_never_skip_a_stage as (H1 & H2 & _ & _ & H5).
  split; [apply H1; reflexivity | split; [apply H2; reflexivity|]].
  eapply (H5 full_run). reflexivity.
Defined.

End ExtractorFacts.

(* ================================================================== *)
(** * Properties of the Gemini response validation *)
(* ================================================================== *)

Module GeminiFacts.
Import Js Gemini.
Local Open Scope Q_scope.

Lemma includes_valid (v : value) :
  includes validAnalyses v = true <-> exists s, v = Str s /\ In s validAnalyses.
Proof.
  destruct v; cbn [includes]; try (split; [discriminate | intros (? & H & _); discriminate H]).
  rewrite existsb_exists. split.
  - intros (x & Hin & Heq). apply String.eqb_eq in Heq. subst x. now exists s.
  - intros (s' & Heq & Hin). injection Heq as <-. exists s. split; [exact Hin|].
    apply String.eqb_refl.
Qed.

Lemma confidence_in_range (v : value) :
  negb (typeof_number v) || lt_0 v || gt_1 v = false <->
  exists q, v = Num (Finite q) /\ 0 <= q /\ q <= 1.
Proof.
  destruct v as [| | |[q| |]| | |]; cbn;
    try (split; [discriminate | intros (? & H & _); discriminate H]).
  rewrite orb_false_iff, !negb_false_iff, !Qle_bool_iff. split.
  - intros [H0 H1]. now exists q.
  - intros (q' & Heq & H0 & H1). injection Heq as <-. now split.
Qed.

(** The callback returns exactly on the recommendations that pass its three
    checks, whatever the index. *)
Lemma validate_recommendation_returns (index : nat) (rec : value) :
  validate_recommendation index rec = Returns tt <->
  valid_analysis_type rec /\ valid_confidence rec /\ truthy_reasoning rec.
Proof.
  unfold validate_recommendation, read, bind, valid_analysis_type,
    valid_confidence, truthy_reasoning.
  destruct (get rec "analysis_type") as [a|];
    [|split; [discriminate | intros ((? & H & _) & _); discriminate H]].
  destruct (get rec "confidence") as [c|];
    [|split; [destruct (_ || _); discriminate
             | intros (_ & (? & H & _) & _); discriminate H]].
  destruct (get rec "reasoning") as [r|];
    [|split; [destruct (_ || _); [discriminate|]; destruct (_ || _); discriminate
             | intros (_ & _ & (? & H & _)); discriminate H]].
  destruct (includes validAnalyses a) eqn:Ha.
  - apply includes_valid in Ha as (s & -> & Hin).
    assert (Hs : truthy (Str s) = true).
    { cbn in Hin. destruct Hin as [<- | [<- | [<- | [<- | []]]]]; reflexivity. }
    rewrite Hs. cbn [negb orb].
    destruct (negb (typeof_number c) || lt_0 c || gt_1 c) eqn:Hc.
    + split; [discriminate|]. intros (_ & (q & Heq & Hq) & _).
      injection Heq as ->.
      assert (H : negb (typeof_number (Num (Finite q))) || lt_0 (Num (Finite q))
                  || gt_1 (Num (Finite q)) = false)
        by (apply confidence_in_range; now exists q).
      congruence.
    + apply confidence_in_range in Hc as (q & -> & Hq).
      destruct (truthy r) eqn:Hr; cbn [negb].
      * split; [intros _ | reflexivity].
        split; [now exists s | split; [now exists q | now exists r]].
      * split; [discriminate|]. intros (_ & _ & (r' & Heq & Hr')).
        injection Heq as <-. congruence.
  - rewrite orb_true_r. split; [discriminate|].
    intros ((s & Heq & Hin) & _). injection Heq as ->.
    assert (H : includes validAnalyses (Str s) = true)
      by (apply includes_valid; now exists s).
    congruence.
Qed.

Lemma forEach_returns (items : list value) :
  forall index,
    forEach validate_recommendation index items = Returns tt <->
    Forall (fun rec => valid_analysis_type rec /\ valid_confidence rec /\
                       truthy_reasoning rec) items.
Proof.
  induction items as [|item items IH]; intros index; cbn [forEach].
  - split; [constructor | reflexivity].
  - rewrite Forall_cons_iff, <- (IH (S index)),
      <- (validate_recommendation_returns index item).
    unfold bind.
    destruct (validate_recommendation index item) as [[]|e].
    + split; [intros H; now split | intros [_ H]; exact H].
    + split; [discriminate | intros [H _]; discriminate H].
Qed.

Lemma forEach_unit (f : nat -> value -> Result unit) (items : list value) :
  forall index r, forEach f index items = Returns r -> r = tt.
Proof. intros index []. reflexivity. Qed.

(** [validate] returns its argument, and exactly when the argument has the
    validated shape. *)
Lemma validate_returns (v r : value) :
  validate v = Returns r <-> r = v /\ validated_shape v.
Proof.
  unfold validate, read, bind, validated_shape, shape.
  destruct (get v "response_type") as [rt|];
    [|split; [discriminate | intros (_ & H & _); discriminate H]].
  destruct (is_string rt "analysis_recommendation") eqn:Hrt.
  2:{ rewrite orb_true_r. split; [discriminate|].
      intros (_ & H & _). injection H as ->. discriminate Hrt. }
  destruct rt; try discriminate Hrt. cbn in Hrt.
  apply String.eqb_eq in Hrt. subst s. cbn [truthy negb orb String.eqb].
  cbn.
  destruct (get v "data") as [data|];
    [|split; [discriminate | intros (_ & _ & ? & ? & H & _); discriminate H]].
  destruct (get data "recommendations") as [recs|] eqn:Hrecs.
  2:{ split; [destruct (negb (truthy data)); discriminate|].
      intros (_ & _ & d & items & Hd & Hr & _). injection Hd as <-. congruence. }
  destruct (truthy data) eqn:Hdata; cbn [negb].
  2:{ split; [discriminate|].
      intros (_ & _ & d & items & Hd & Hr & _). injection Hd as <-.
      clear Hrecs.
      destruct data as [| |b|[q| |]|s| |]; cbn in Hdata, Hr; discriminate. }
  destruct recs as [| | | | |items|];
    try (split; [cbn; try discriminate; destruct (negb _ || _); discriminate
                | intros (_ & _ & d & items & Hd & Hr & _);
                  injection Hd as <-; rewrite Hrecs in Hr; discriminate Hr]).
  cbn [truthy isArray negb orb].
  destruct (Nat.eqb_spec (List.length items) 3) as [Hlen | Hlen]; cbn [negb].
  - destruct (forEach validate_recommendation 0 items) as [[]|e] eqn:Hall.
    + apply forEach_returns in Hall. split.
      * intros H. injection H as <-. split; [reflexivity|].
        split; [reflexivity|]. now exists data, items.
      * intros [-> _]. reflexivity.
    + split; [discriminate|].
      intros (_ & _ & d & items' & Hd & Hr & _ & Hall').
      injection Hd as <-. rewrite Hrecs in Hr. injection Hr as <-.
      apply (forEach_returns items 0%nat) in Hall'. congruence.
  - split; [discriminate|].
    intros (_ & _ & d & items' & Hd & Hr & Hlen' & _).
    injection Hd as <-. rewrite Hrecs in Hr. injection Hr as <-. contradiction.
Qed.

Section Platform.

Variable trim : string -> string.
Variable match_code_block : string -> option string.
Variable match_braces : string -> option string.
Variable JSON_parse : string -> option value.

Let parse_response := parse_response trim match_code_block match_braces JSON_parse.
Let handle_response := handle_response trim match_code_block match_braces JSON_parse.

Lemma parse_response_returns (geminiResponse r : value) :
  parse_response geminiResponse = Returns r <->
  exists text,
    geminiResponse = Str text /\
    JSON_parse (clean trim match_code_block match_braces text) = Some r /\
    validated_shape r.
Proof.
  unfold parse_response, Gemini.parse_response.
  destruct geminiResponse as [| | | |text| |];
    try (split; [discriminate | intros (? & H & _); discriminate H]).
  destruct (JSON_parse _) as [parsed|] eqn:Hparse.
  - destruct (validate parsed) as [r'|e] eqn:Hv.
    + apply validate_returns in Hv as [-> Hshape]. split.
      * intros H. injection H as <-. now exists text.
      * intros (text' & Heq & Hp & _). injection Heq as <-. congruence.
    + split; [discriminate|].
      intros (text' & Heq & Hp & Hshape). injection Heq as <-.
      rewrite Hparse in Hp. injection Hp as ->.
      assert (H : validate r = Returns r) by (now apply validate_returns).
      congruence.
  - split; [discriminate|].
    intros (text' & Heq & Hp & _). injection Heq as <-. congruence.
Qed.

(** Whatever [handle_response] returns went through [parse_response]. *)
Lemma handle_response_returns (fetched : Fetch) (r : value) :
  handle_response fetched = Returns r ->
  exists geminiResponse, parse_response geminiResponse = Returns r.
Proof.
  unfold handle_response, Gemini.handle_response, bind.
  destruct fetched as [|response]; [discriminate|].
  destruct (negb (ok response)); [discriminate|].
  destruct (json response) as [data|]; [|discriminate].
  repeat match goal with
         | |- match ?x with Returns _ => _ | Throws _ => _ end = _ -> _ =>
             destruct x; [|discriminate]
         | |- (if ?b then Throws _ else _) = _ -> _ =>
             destruct b; [discriminate|]
         end.
  intros H. eexists. exact H.
Qed.

Lemma getAnalysisRecommendation_returns (apiKey : option string)
      (fetched : Fetch) (r : value) :
  getAnalysisRecommendation trim match_code_block match_braces JSON_parse
                            apiKey fetched = Returns r ->
  validated_shape r.
Proof.
  unfold getAnalysisRecommendation.
  destruct apiKey as [key|]; [|discriminate].
  destruct (String.eqb key ""); [discriminate|].
  intros H. apply handle_response_returns in H as (g & H).
  apply parse_response_returns in H as (_ & _ & _ & H). exact H.
Qed.

Lemma getAnalysisRecommendationWithImage_returns (apiKey base64Image : option string)
      (fetched : Fetch) (r : value) :
  getAnalysisRecommendationWithImage trim match_code_block match_braces JSON_parse
                                     apiKey base64Image fetched = Returns r ->
  validated_shape r.
Proof.
  unfold getAnalysisRecommendationWithImage.
  destruct apiKey as [key|]; [|discriminate].
  destruct (String.eqb key ""); [discriminate|].
  destruct base64Image; [|discriminate].
  intros H. apply handle_response_returns in H as (g & H).
  apply parse_response_returns in H as (_ & _ & _ & H). exact H.
Qed.

(** A well-formed API response whose text parses to [parsed] is returned
    exactly when [parsed] passes the validation. *)
Lemma api_response_returned (key text : string) (parsed : value) :
  key <> "" -> text <> "" ->
  JSON_parse (clean trim match_code_block match_braces text) = Some parsed ->
  validate parsed = Returns parsed ->
  getAnalysisRecommendation trim match_code_block match_braces JSON_parse
                            (Some key) (Resolves (api_response text))
  = Returns parsed
  /\
  getAnalysisRecommendationWithImage trim match_code_block match_braces JSON_parse
                                     (Some key) (Some "aGVsbG8=")
                                     (Resolves (api_response text))
  = Returns parsed.
Proof.
  intros Hkey Htext Hparse Hvalid.
  unfold getAnalysisRecommendation, getAnalysisRecommendationWithImage.
  destruct (String.eqb_spec key ""); [contradiction|].
  cbn. destruct (String.eqb_spec text ""); [contradiction|].
  cbn. unfold Gemini.parse_response. rewrite Hparse, Hvalid. split; reflexivity.
Qed.

End Platform.

Lemma numeric_reasoning_validates :
  validate numeric_reasoning = Returns numeric_reasoning.
Proof. vm_compute. reflexivity. Qed.

Lemma numeric_reasoning_not_claimed : ~ claimed_shape numeric_reasoning.
Proof.
  intros (_ & data & items & Hd & Hr & _ & Hall).
  cbn in Hd. injection Hd as <-. cbn in Hr. injection Hr as <-.
  apply Forall_inv_tail, Forall_inv_tail, Forall_inv in Hall.
  destruct Hall as (_ & _ & s & Hs & _). cbn in Hs. discriminate Hs.
Qed.

(** C10, at the failing input: an API response whose text parses to three
    recommendations, the third with the number 5 as its reasoning, is
    returned by [getAnalysisRecommendation] and by
    [getAnalysisRecommendationWithImage] instead of being thrown on, although
    that reasoning is not a non-empty string.  (The response type, the
    number of entries, the analysis types and the confidences of a returned
    value are as the claim says: [validate_returns].) *)
Theorem numeric_reasoning_is_returned :
  validate numeric_reasoning = Returns numeric_reasoning
  /\ ~ claimed_shape numeric_reasoning
  /\ forall trim match_code_block match_braces JSON_parse key text,
       key <> "" -> text <> "" ->
       JSON_parse (clean trim match_code_block match_braces text)
         = Some numeric_reasoning ->
       getAnalysisRecommendation trim match_code_block match_braces JSON_parse
                                 (Some key) (Resolves (api_response text))
         = Returns numeric_reasoning
       /\
       getAnalysisRecommendationWithImage trim match_code_block match_braces
                                          JSON_parse (Some key) (Some "aGVsbG8=")
                                          (Resolves (api_response text))
         = Returns numeric_reasoning.
Proof.
  split; [exact numeric_reasoning_validates|].
  split; [exact numeric_reasoning_not_claimed|].
  intros trim mcb mb parse key text Hkey Htext Hparse.
  apply api_response_returned; try assumption.
  exact numeric_reasoning_validates.
Qed.

(** The text-only function on the failing input. *)
Lemma numeric_reasoning_is_returned_witness :
  getAnalysisRecommendation (fun s => s) (fun _ => None) (fun s => Some s)
                            parse_response_text
                            (Some "key") (Resolves (api_response response_text))
  = Returns numeric_reasoning.
Proof.
  apply (proj2 (proj2 numeric_reasoning_is_returned)
               (fun s => s) (fun _ => None) (fun s => Some s)
               parse_response_text "key" response_text);
    [discriminate | discriminate | reflexivity].
Defined.

End GeminiFacts.


(* ================================================================== *)
(** * Outcomes of the Gemini helper *)
(* ================================================================== *)

Module GeminiOutcomeFacts.
Import Js Gemini GeminiFacts GeminiOutcomes.
Local Open Scope Q_scope.

Lemma get_none (v : value) (k : string) :
  get v k = None <-> v = Null \/ v = Undefined.
Proof.
  destruct v; cbn; split; try discriminate; try (intros [H|H]; discriminate H);
    auto.
Qed.

Lemma get_some_any (v : value) (k k' : string) (x : value) :
  get v k = Some x -> exists y, get v k' = Some y.
Proof.
  destruct v; cbn; try discriminate; intros _; eexists; reflexivity.
Qed.

(** The callback throws on a recommendation for the first check that the
    recommendation fails. *)
Lemma rejected_recommendation (index : nat) (rec : value) (e : Error) :
  validate_recommendation index rec = Throws e -> rejection index rec e.
Proof.
  unfold validate_recommendation, read, bind, rejection.
  destruct (get rec "analysis_type") as [a|] eqn:Ha.
  2:{ intros H. injection H as <-. left. split; [reflexivity|].
      now apply (get_none rec "analysis_type"). }
  assert (Hnn : rec <> Null /\ rec <> Undefined).
  { split; intros ->; discriminate Ha. }
  destruct (get_some_any _ _ "confidence" _ Ha) as [c Hc].
  destruct (get_some_any _ _ "reasoning" _ Ha) as [r Hr].
  rewrite Hc, Hr.
  destruct (negb (truthy a) || negb (includes validAnalyses a)) eqn:Hta.
  - intros H. injection H as <-. right; left.
    split; [reflexivity | split; [apply Hnn | split; [apply Hnn|]]].
    intros (s & Hs & Hin). rewrite Ha in Hs. injection Hs as ->.
    apply orb_true_iff in Hta as [Hta | Hta]; apply negb_true_iff in Hta.
    + cbn in Hin. destruct Hin as [<- | [<- | [<- | [<- | []]]]]; discriminate Hta.
    + assert (includes validAnalyses (Str s) = true)
        by (apply includes_valid; now exists s).
      congruence.
  - apply orb_false_iff in Hta as [_ Hinc]. apply negb_false_iff in Hinc.
    apply includes_valid in Hinc as (s & -> & Hin).
    assert (Hat : valid_analysis_type rec) by (now exists s).
    destruct (negb (typeof_number c) || lt_0 c || gt_1 c) eqn:Hcc.
    + intros H. injection H as <-. right; right; left.
      split; [reflexivity | split; [exact Hat|]].
      intros (q & Hq & Hrange). rewrite Hc in Hq. injection Hq as ->.
      assert (negb (typeof_number (Num (Finite q))) || lt_0 (Num (Finite q))
              || gt_1 (Num (Finite q)) = false)
        by (apply confidence_in_range; now exists q).
      congruence.
    + apply confidence_in_range in Hcc as (q & -> & Hq).
      assert (Hcf : valid_confidence rec) by (now exists q).
      destruct (truthy r) eqn:Htr; cbn [negb]; [discriminate|].
      intros H. injection H as <-. right; right; right.
      split; [reflexivity | split; [exact Hat | split; [exact Hcf|]]].
      intros (r' & Hr' & Ht'). rewrite Hr in Hr'. injection Hr' as <-. congruence.
Qed.

(** [forEach] throws at the first item on which the callback throws. *)
Lemma forEach_throws (items : list value) :
  forall start e,
    forEach validate_recommendation start items = Throws e ->
    exists i rec,
      nth_error items i = Some rec /\
      Forall valid_recommendation (firstn i items) /\
      rejection (start + i) rec e.
Proof.
  induction items as [|item items IH]; intros start e H; cbn [forEach] in H.
  - discriminate H.
  - unfold bind in H.
    destruct (validate_recommendation start item) as [[]|e'] eqn:Hitem.
    + apply validate_recommendation_returns in Hitem.
      destruct (IH (S start) e H) as (i & rec & Hnth & Hbefore & Hrej).
      exists (S i), rec. cbn [nth_error firstn].
      split; [exact Hnth | split].
      * constructor; assumption.
      * replace (start + S i)%nat with (S start + i)%nat by lia. exact Hrej.
    + injection H as <-. exists 0%nat, item. cbn [nth_error firstn].
      split; [reflexivity | split; [constructor|]].
      rewrite Nat.add_0_r. apply rejected_recommendation, Hitem.
Qed.

Lemma validate_throws_parse_error (v : value) (e : Error) :
  validate v = Throws e -> parse_error e = true.
Proof.
  unfold validate, read, bind.
  destruct (get v "response_type") as [rt|]; [|intros H; injection H as <-; reflexivity].
  destruct (_ || _); [intros H; injection H as <-; reflexivity|].
  destruct (get v "data") as [data|]; [|intros H; injection H as <-; reflexivity].
  destruct (negb (truthy data)); [intros H; injection H as <-; reflexivity|].
  destruct (get data "recommendations") as [recs|];
    [|intros H; injection H as <-; reflexivity].
  destruct (_ || _); [intros H; injection H as <-; reflexivity|].
  destruct recs as [| | | | |items|]; try (intros H; injection H as <-; reflexivity).
  destruct (negb _); [intros H; injection H as <-; reflexivity|].
  destruct (forEach validate_recommendation 0 items) as [[]|e'] eqn:Hall;
    [discriminate|].
  intros H. injection H as <-.
  destruct (forEach_throws items 0%nat e' Hall) as (i & rec & _ & _ & Hrej).
  destruct Hrej as [[-> _] | [[-> _] | [[-> _] | [-> _]]]]; reflexivity.
Qed.

Section Platform.

Variable trim : string -> string.
Variable match_code_block : string -> option string.
Variable match_braces : string -> option string.
Variable JSON_parse : string -> option value.

Let parse_response := parse_response trim match_code_block match_braces JSON_parse.
Let handle_response := handle_response trim match_code_block match_braces JSON_parse.
Let clean := clean trim match_code_block match_braces.

Lemma parse_response_throws (geminiResponse : value) (e : Error) :
  parse_response geminiResponse = Throws e ->
  exists inner, e = FailedToParse inner /\ parse_error inner = true.
Proof.
  unfold parse_response, Gemini.parse_response.
  destruct geminiResponse as [| | | |text| |];
    try (intros H; injection H as <-; eexists; split; reflexivity).
  destruct (JSON_parse _) as [parsed|];
    [|intros H; injection H as <-; eexists; split; reflexivity].
  destruct (validate parsed) as [r|e'] eqn:Hv; [discriminate|].
  intros H. injection H as <-. exists e'. split; [reflexivity|].
  exact (validate_throws_parse_error _ _ Hv).
Qed.

Lemma handle_response_throws (fetched : Fetch) (e : Error) :
  handle_response fetched = Throws e ->
  envelope_error e = true \/
  exists inner, e = FailedToParse inner /\ parse_error inner = true.
Proof.
  unfold handle_response, Gemini.handle_response, bind, read, read_first.
  destruct fetched as [|response]; [intros H; injection H as <-; now left|].
  destruct (negb (ok response)); [intros H; injection H as <-; now left|].
  destruct (json response) as [data|]; [|intros H; injection H as <-; now left].
  repeat match goal with
         | |- match match ?x with Some _ => _ | None => _ end with _ => _ end = _ -> _ =>
             destruct x; [|intros H; injection H as <-; now left]
         | |- (if ?b then Throws _ else _) = _ -> _ =>
             destruct b; [intros H; injection H as <-; now left|]
         end.
  intros H. right. exact (parse_response_throws _ _ H).
Qed.

Lemma nonzero_length_spec (v len : value) :
  get v "length" = Some len -> is_zero len = false -> nonzero_length v.
Proof. intros H1 H2. now exists len. Qed.

(** From the settled [fetch] on, a value is returned exactly for a
    response with the envelope whose text parses to a value of the
    validated shape. *)
Lemma handle_response_returns_iff (fetched : Fetch) (r : value) :
  handle_response fetched = Returns r <->
  exists response text,
    fetched = Resolves response /\ envelope response text /\
    JSON_parse (clean text) = Some r /\ validated_shape r.
Proof.
  split.
  - unfold handle_response, Gemini.handle_response, bind, read, read_first.
    destruct fetched as [|response]; [discriminate|].
    destruct (ok response) eqn:Hok; cbn [negb]; [|discriminate].
    destruct (json response) as [data|] eqn:Hjson; [|discriminate].
    destruct (get data "candidates") as [candidates|] eqn:Hcs; [|discriminate].
    destruct (truthy candidates) eqn:Htc; cbn [negb]; [|discriminate].
    destruct (get candidates "length") as [len|] eqn:Hlen; [|discriminate].
    destruct (is_zero len) eqn:Hz; [discriminate|].
    destruct (first candidates) as [candidate|] eqn:Hfirst; [|discriminate].
    destruct (get candidate "finishReason") as [fr|] eqn:Hfr; [|discriminate].
    destruct (is_string fr "MAX_TOKENS") eqn:Hmax; [discriminate|].
    destruct (get candidate "content") as [content|] eqn:Hcontent; [|discriminate].
    destruct (truthy content) eqn:Htcontent; cbn [negb]; [|discriminate].
    destruct (get content "parts") as [parts|] eqn:Hparts; [|discriminate].
    destruct (truthy parts) eqn:Htparts; cbn [negb]; [|discriminate].
    destruct (get parts "length") as [plen|] eqn:Hplen; [|discriminate].
    destruct (is_zero plen) eqn:Hpz; [discriminate|].
    destruct (first parts) as [part|] eqn:Hpart; [|discriminate].
    destruct (get part "text") as [g|] eqn:Htext; [|discriminate].
    destruct (truthy g) eqn:Htg; cbn [negb]; [|discriminate].
    intros H. apply parse_response_returns in H as (text & -> & Hparse & Hshape).
    exists response, text. split; [reflexivity|]. split; [|split; assumption].
    split; [exact Hok|].
    exists data, candidates, candidate, fr, content, parts, part.
    repeat (split; [first [assumption | eapply nonzero_length_spec; eassumption]|]).
    intros ->. discriminate Htg.
  - intros (response & text & -> & [Hok Henv] & Hparse & Hshape).
    destruct Henv as (data & candidates & candidate & fr & content & parts & part
                      & Hjson & Hcs & Htc & (len & Hlen & Hz) & Hfirst & Hfr & Hmax
                      & Hcontent & Htcontent & Hparts & Htparts
                      & (plen & Hplen & Hpz) & Hpart & Htext & Hne).
    unfold handle_response, Gemini.handle_response, bind, read, read_first.
    rewrite Hok, Hjson, Hcs, Htc, Hlen, Hz, Hfirst, Hfr, Hmax, Hcontent,
      Htcontent, Hparts, Htparts, Hplen, Hpz, Hpart, Htext.
    cbn [negb truthy]. destruct (String.eqb_spec text ""); [contradiction|].
    cbn [negb]. apply parse_response_returns. now exists text.
Qed.

End Platform.

(** X1: [getAnalysisRecommendation] returns a value [r] exactly when the API
    key is set and not empty, the request resolves with an ok response whose
    body can be read, [candidates] in the body is truthy and its [length] is
    not 0, the first candidate has a [finishReason] other than MAX_TOKENS
    and a truthy [content] whose [parts] is truthy with a [length] that is
    not 0, the [text] of the first part is a non-empty string, and that
    text, cleaned, parses to [r], a value of the validated shape.  Neither
    [candidates] nor [parts] has to be an array: an object with a property
    [0] and no [length] passes the same checks.
    [getAnalysisRecommendationWithImage] returns [r] under the same
    conditions when, in addition, the image was read. *)
Theorem recommendation_returned_iff
        (trim : string -> string)
        (match_code_block match_braces : string -> option string)
        (JSON_parse : string -> option value)
        (apiKey base64Image : option string) (fetched : Fetch) (r : value) :
  let accepted :=
    exists response text,
      fetched = Resolves response /\ envelope response text /\
      JSON_parse (clean trim match_code_block match_braces text) = Some r /\
      validated_shape r in
  (getAnalysisRecommendation trim match_code_block match_braces JSON_parse
                             apiKey fetched = Returns r
   <-> (exists key, apiKey = Some key /\ key <> "") /\ accepted)
  /\
  (getAnalysisRecommendationWithImage trim match_code_block match_braces JSON_parse
                                      apiKey base64Image fetched = Returns r
   <-> (exists key, apiKey = Some key /\ key <> "") /\ base64Image <> None /\
       accepted).
Proof.
  cbn zeta. unfold getAnalysisRecommendation, getAnalysisRecommendationWithImage.
  rewrite <- handle_response_returns_iff.
  destruct apiKey as [key|].
  2:{ split; (split; [discriminate | intros [(k & H & _) _]; discriminate H]). }
  destruct (String.eqb_spec key "") as [-> | Hkey].
  { split; (split; [discriminate | intros [(k & H & Hk) _]; injection H as <-;
                                    contradiction]). }
  split.
  - split; [intros H; split; [now exists key | exact H] | intros [_ H]; exact H].
  - destruct base64Image as [b|].
    + split; [intros H; split; [now exists key | split; [discriminate | exact H]]
             | intros (_ & _ & H); exact H].
    + split; [discriminate | intros (_ & H & _); contradiction].
Qed.

(** A response whose [candidates] and [parts] are objects is returned like
    one with arrays. *)
Example object_candidates_are_returned :
  getAnalysisRecommendation (fun s => s) (fun _ => None) (fun s => Some s)
                            parse_example_text (Some "key")
                            (Resolves object_response)
  = Returns ranked.
Proof. vm_compute. reflexivity. Qed.

(** X2: whatever the two functions throw is the missing API key, the failed
    read of the image, an error of the request or of the envelope of the
    response, or "Failed to parse Gemini response" around an error of the
    parsing and validation.  No validation error leaves the functions
    unwrapped. *)
Theorem validation_errors_are_wrapped
        (trim : string -> string)
        (match_code_block match_braces : string -> option string)
        (JSON_parse : string -> option value)
        (apiKey base64Image : option string) (fetched : Fetch) (e : Error) :
  getAnalysisRecommendation trim match_code_block match_braces JSON_parse
                            apiKey fetched = Throws e
  \/ getAnalysisRecommendationWithImage trim match_code_block match_braces
                                        JSON_parse apiKey base64Image fetched
     = Throws e ->
  e = ApiKeyNotConfigured \/ e = ReadFailed \/ envelope_error e = true
  \/ exists inner, e = FailedToParse inner /\ parse_error inner = true.
Proof.
  unfold getAnalysisRecommendation, getAnalysisRecommendationWithImage.
  destruct apiKey as [key|];
    [|intros [H|H]; injection H as <-; now left].
  destruct (String.eqb key "");
    [intros [H|H]; injection H as <-; now left|].
  intros [H|H].
  - right; right. exact (handle_response_throws _ _ _ _ _ _ H).
  - destruct base64Image; [|injection H as <-; right; now left].
    right; right. exact (handle_response_throws _ _ _ _ _ _ H).
Qed.

Lemma validation_errors_are_wrapped_witness :
  getAnalysisRecommendation (fun s => s) (fun _ => None) (fun s => Some s)
                            parse_example_text (Some "key")
                            (Resolves (api_response overconfident_text))
  = Throws (FailedToParse (InvalidConfidence 1))
  /\ (FailedToParse (InvalidConfidence 1) = ApiKeyNotConfigured
      \/ FailedToParse (InvalidConfidence 1) = ReadFailed
      \/ envelope_error (FailedToParse (InvalidConfidence 1)) = true
      \/ exists inner, FailedToParse (InvalidConfidence 1) = FailedToParse inner
                       /\ parse_error inner = true).
Proof.
  split; [vm_compute; reflexivity|].
  apply (validation_errors_are_wrapped
           (fun s => s) (fun _ => None) (fun s => Some s) parse_example_text
           (Some "key") None (Resolves (api_response overconfident_text))).
  left. vm_compute. reflexivity.
Defined.

(** X3: when the validation throws "Invalid analysis_type", "Invalid
    confidence" or "Missing reasoning" at an index, the response has three
    recommendations, every recommendation before that index passes all three
    checks, and the one at the index fails the check the error names after
    passing the checks before it. *)
Theorem validation_names_the_first_invalid_recommendation
        (v : value) (e : Error) (index : nat) :
  validate v = Throws e ->
  e = InvalidAnalysisType index \/ e = InvalidConfidence index
  \/ e = MissingReasoning index ->
  exists data items rec,
    get v "data" = Some data /\
    get data "recommendations" = Some (Arr items) /\
    List.length items = 3%nat /\
    nth_error items index = Some rec /\
    Forall valid_recommendation (firstn index items) /\
    rejection index rec e.
Proof.
  unfold validate, read, bind. intros H He.
  destruct (get v "response_type") as [rt|];
    [|injection H as <-; destruct He as [He | [He | He]]; discriminate He].
  destruct (_ || _);
    [injection H as <-; destruct He as [He | [He | He]]; discriminate He|].
  destruct (get v "data") as [data|];
    [|injection H as <-; destruct He as [He | [He | He]]; discriminate He].
  destruct (negb (truthy data));
    [injection H as <-; destruct He as [He | [He | He]]; discriminate He|].
  destruct (get data "recommendations") as [recs|] eqn:Hrecs;
    [|injection H as <-; destruct He as [He | [He | He]]; discriminate He].
  destruct (_ || _);
    [injection H as <-; destruct He as [He | [He | He]]; discriminate He|].
  destruct recs as [| | | | |items|];
    try (injection H as <-; destruct He as [He | [He | He]]; discriminate He).
  destruct (Nat.eqb_spec (List.length items) 3) as [Hlen | Hlen]; cbn [negb] in H;
    [|injection H as <-; destruct He as [He | [He | He]]; discriminate He].
  destruct (forEach validate_recommendation 0 items) as [[]|e'] eqn:Hall;
    [discriminate H|].
  injection H as <-.
  destruct (forEach_throws items 0%nat e' Hall) as (i & rec & Hnth & Hbefore & Hrej).
  cbn [Nat.add] in Hrej.
  assert (i = index) as ->.
  { destruct Hrej as [[-> _] | [[-> _] | [[-> _] | [-> _]]]];
      destruct He as [He | [He | He]]; congruence. }
  exists data, items, rec. repeat (split; [first [reflexivity | assumption]|]).
  exact Hrej.
Qed.

Lemma validation_names_the_first_invalid_recommendation_witness :
  validate overconfident = Throws (InvalidConfidence 1)
  /\ exists data items rec,
       get overconfident "data" = Some data /\
       get data "recommendations" = Some (Arr items) /\
       List.length items = 3%nat /\
       nth_error items 1 = Some rec /\
       Forall valid_recommendation (firstn 1 items) /\
       rejection 1 rec (InvalidConfidence 1).
Proof.
  split; [vm_compute; reflexivity|].
  apply (validation_names_the_first_invalid_recommendation
           overconfident (InvalidConfidence 1) 1);
    [vm_compute; reflexivity | right; left; reflexivity].
Defined.

End GeminiOutcomeFacts.

(* ================================================================== *)
(** * Properties of the DimensionExtractor page under the interface *)
(* ================================================================== *)

Module ExtractorUiFacts.
Import Schema Extractor ExtractorFacts ExtractorUi.

Lemma tidy_start : tidy start.
Proof. split; cbn; auto; discriminate. Qed.

Lemma tidy_step (e : Event) (p : Page) :
  tidy p -> clickable e p = true -> tidy (step e p).
Proof.
  intros [He Hg Hl Hgb Hre Hse] Hc.
  destruct p as [[fs ld res err pv vs ve gv] ne ng]. cbn in *.
  destruct e as [n sel | n loaded | | o | | o | ].
  - (* FileChange *)
    destruct sel as [[|f sel]|]; split; cbn; rewrite ?Nat.add_0_r; assumption.
  - (* Onload *)
    unfold step, handler, onload, truthy.
    destruct loaded as [d|]; [destruct (String.eqb d "")|];
      split; cbn; rewrite ?Nat.add_0_r; assumption.
  - (* Submit *)
    unfold clickable, submit_disabled in Hc. cbn [ui isLoading] in Hc.
    apply negb_true_iff, orb_false_iff in Hc as [_ ->]. cbn in He. subst ne.
    split; cbn; auto; try easy. rewrite Nat.add_0_r. exact Hg.
  - (* ExtractionSettled *)
    destruct ld; cbn in He; subst ne; [|cbn in Hc; discriminate Hc].
    destruct (Hl eq_refl) as [-> ->].
    destruct o as [data|e]; split; cbn; rewrite ?Nat.add_0_r; auto; easy.
  - (* GenerateVba *)
    destruct res as [r|]; [|cbn in Hc; discriminate Hc]. cbn in Hc.
    apply negb_true_iff in Hc. subst gv. cbn in Hg. subst ng.
    split; cbn; auto. rewrite Nat.add_0_r. exact He.
  - (* GenerationSettled *)
    destruct gv; cbn in Hg; subst ng; [|cbn in Hc; discriminate Hc].
    destruct (Hgb eq_refl) as [-> ->].
    destruct o as [data|e]; split; cbn; rewrite ?Nat.add_0_r; auto; easy.
  - (* DownloadVba *)
    unfold step, handler, handleDownloadVba, truthy. cbn [ui vbaScript].
    destruct vs as [script|]; [destruct (String.eqb script "")|];
      split; cbn; rewrite ?Nat.add_0_r; assumption.
Qed.

Lemma tidy_browse (evs : list Event) :
  forall p sent p' sent',
    tidy p -> browse evs p sent = Some (p', sent') -> tidy p'.
Proof.
  induction evs as [|e evs IH]; intros p sent p' sent' Ht H; cbn in H.
  - injection H as <- _. exact Ht.
  - destruct (clickable e p) eqn:Hc; [|discriminate H].
    exact (IH _ _ _ _ (tidy_step e p Ht Hc) H).
Qed.

Lemma sound_history_step (e : Event) (past : list Event) (p : Page)
      (sent : list Request) :
  sound_history past p sent -> clickable e p = true ->
  sound_history (past ++ [e]) (step e p)
                (sent ++ requests (handler e (ui p)) (ui p)).
Proof.
  intros [Hres Hviews Hconv] Hc.
  assert (Hconv' : forall r, In (PostConvertClean r) sent ->
                             In (ExtractionSettled (Resolved r)) (past ++ [e]))
    by (intros r H; apply in_or_app; left; now apply Hconv).
  assert (Hres' : forall r, result (ui p) = Some r ->
                            In (ExtractionSettled (Resolved r)) (past ++ [e]))
    by (intros r H; apply in_or_app; left; now apply Hres).
  destruct p as [[fs ld res err pv vs ve gv] ne ng]. cbn in *.
  destruct e as [n sel | n loaded | | o | | o | ].
  - destruct sel as [[|f sel]|]; cbn; rewrite app_nil_r; split; assumption.
  - unfold step, handler, onload, requests, truthy.
    destruct loaded as [d|]; [destruct (String.eqb d "")|];
      cbn; rewrite app_nil_r; split; assumption.
  - (* Submit *)
    unfold clickable, submit_disabled in Hc. cbn [ui isLoading] in Hc.
    apply negb_true_iff, orb_false_iff in Hc as [Hall _].
    apply negb_false_iff, allFilesSelected_iff in Hall as (t & f & d & Hfs).
    cbn in Hfs. subst fs. cbn. split; cbn.
    + discriminate.
    + apply Forall_app. split; [exact Hviews|]. constructor; [reflexivity | constructor].
    + intros r H. apply in_app_or in H as [H | [H | []]]; [now apply Hconv' | discriminate H].
  - (* ExtractionSettled *)
    destruct o as [data|err']; cbn; rewrite app_nil_r; split; cbn; try assumption.
    intros r H. injection H as <-. apply in_or_app. right. now left.
  - (* GenerateVba *)
    destruct res as [r0|]; [|cbn in Hc; discriminate Hc].
    cbn. split; cbn.
    + exact Hres'.
    + apply Forall_app. split; [exact Hviews|]. constructor; [exact I | constructor].
    + intros r H. apply in_app_or in H as [H | [H | []]]; [now apply Hconv'|].
      injection H as <-. now apply Hres'.
  - (* GenerationSettled *)
    destruct o as [data|err']; cbn; rewrite app_nil_r; split; assumption.
  - (* DownloadVba *)
    unfold step, handler, handleDownloadVba, requests, truthy. cbn [ui vbaScript].
    destruct vs as [script|]; [destruct (String.eqb script "")|];
      cbn; rewrite app_nil_r; split; assumption.
Qed.

Lemma sound_history_browse (evs : list Event) :
  forall past p sent p' sent',
    sound_history past p sent -> browse evs p sent = Some (p', sent') ->
    sound_history (past ++ evs) p' sent'.
Proof.
  induction evs as [|e evs IH]; intros past p sent p' sent' Hs H; cbn in H.
  - injection H as <- <-. now rewrite app_nil_r.
  - destruct (clickable e p) eqn:Hc; [|discriminate H].
    replace (past ++ e :: evs)%list with ((past ++ [e]) ++ evs)%list
      by (rewrite <- app_assoc; reflexivity).
    exact (IH _ _ _ _ _ (sound_history_step e past p sent Hs Hc) H).
Qed.

Lemma sound_history_start : sound_history [] start [].
Proof. split; cbn; [discriminate | constructor | intros r []]. Qed.

Lemma file_stays_step (e : Event) (p : Page) (n : InputName) :
  is_some (file_of n (files (ui p))) = true ->
  is_some (file_of n (files (ui (step e p)))) = true.
Proof.
  destruct p as [[[t f d] ld res err pv vs ve gv] ne ng].
  destruct e as [m sel | m loaded | | o | | o | ].
  - destruct sel as [[|x sel]|]; cbn; try (intros H; exact H).
    destruct m, n; cbn; auto.
  - unfold step, handler, onload, truthy.
    destruct loaded as [x|]; [destruct (String.eqb x "")|]; cbn; auto.
  - cbn. auto.
  - destruct o; cbn; auto.
  - destruct res; cbn; auto.
  - destruct o; cbn; auto.
  - unfold step, handler, handleDownloadVba, truthy. cbn [ui vbaScript].
    destruct vs as [script|]; [destruct (String.eqb script "")|]; cbn; auto.
Qed.

(** X4: no event of the page takes a chosen view away.  A view that has a
    file keeps having one (a later choice replaces the file, a cancelled
    dialog changes nothing, a submission does not clear the inputs), so once
    all three views are selected they stay selected, also after a failed
    extraction. *)
Theorem chosen_views_stay_chosen (evs : list Event) :
  forall p log p' log',
    play evs p log = Some (p', log') ->
    (forall n, is_some (file_of n (files (ui p))) = true ->
               is_some (file_of n (files (ui p'))) = true)
    /\ (allFilesSelected (ui p) = true -> allFilesSelected (ui p') = true).
Proof.
  induction evs as [|e evs IH]; intros p log p' log' H; cbn in H.
  - injection H as <- _. split; auto.
  - destruct (possible e p); [|discriminate H].
    destruct (IH _ _ _ _ H) as [IHn IHall].
    assert (Hn : forall n, is_some (file_of n (files (ui p))) = true ->
                           is_some (file_of n (files (ui p'))) = true)
      by (intros n Hsome; apply IHn, file_stays_step, Hsome).
    split; [exact Hn|].
    intros Hall.
    assert (Hsel : forall q, allFilesSelected q = true <->
                             forall n, is_some (file_of n (files q)) = true).
    { intros q. unfold allFilesSelected, values, entries. cbn.
      destruct (files q) as [[t|] [f|] [d|]]; cbn; split; try discriminate;
        try (intros _ []; reflexivity); try reflexivity;
        intros Hq;
        first [ exact (Hq top_view_input) | exact (Hq front_view_input)
              | exact (Hq side_view_input) ]. }
    apply Hsel. intros n. apply Hn. now apply Hsel.
Qed.

Lemma chosen_views_stay_chosen_witness :
  allFilesSelected
    (ui (step (ExtractionSettled (Rejected bad_request))
              (step Submit (mkPage three_views 0 0)))) = true.
Proof.
  exact (proj2 (chosen_views_stay_chosen
                  [Submit; ExtractionSettled (Rejected bad_request)]
                  (mkPage three_views 0 0) []
                  (step (ExtractionSettled (Rejected bad_request))
                        (step Submit (mkPage three_views 0 0)))
                  [ExtractionRequested] eq_refl)
               eq_refl).
Defined.

(** X5: on the rendered page at most one extraction request and at most one
    generation request await their answer at any time, and [isLoading] and
    [isGeneratingVba] are set exactly while one does: the disabled buttons
    keep a second request of the same kind from being sent. *)
Theorem one_request_of_each_kind_in_flight (evs : list Event) (p : Page)
        (sent : list Request) :
  browse evs start [] = Some (p, sent) ->
  extracting p = pending (isLoading (ui p))
  /\ generating p = pending (isGeneratingVba (ui p))
  /\ (extracting p <= 1)%nat /\ (generating p <= 1)%nat.
Proof.
  intros H. destruct (tidy_browse evs _ _ _ _ tidy_start H) as [He Hg _ _ _ _].
  split; [exact He | split; [exact Hg|]].
  rewrite He, Hg. split; [destruct (isLoading _) | destruct (isGeneratingVba _)];
    cbn; lia.
Qed.

Lemma one_request_of_each_kind_in_flight_witness :
  extracting generation_pending = 0%nat /\ generating generation_pending = 1%nat
  /\ (extracting generation_pending <= 1)%nat
  /\ (generating generation_pending <= 1)%nat.
Proof.
  apply (one_request_of_each_kind_in_flight
           until_generation generation_pending generation_requests).
  vm_compute. reflexivity.
Defined.

(** X6: the page never shows a result together with an error, nor a script
    together with a script error, and while an extraction is loading it
    shows neither a result nor an error. *)
Theorem result_and_error_never_together (evs : list Event) (p : Page)
        (sent : list Request) :
  browse evs start [] = Some (p, sent) ->
  (isLoading (ui p) = true -> result_shown (ui p) = false /\ error_shown (ui p) = false)
  /\ result_shown (ui p) && error_shown (ui p) = false
  /\ truthy (vbaScript (ui p)) && truthy (vbaError (ui p)) = false.
Proof.
  intros H. destruct (tidy_browse evs _ _ _ _ tidy_start H) as [_ _ Hl _ Hre Hse].
  unfold result_shown, error_shown.
  split; [|split].
  - intros Hld. destruct (Hl Hld) as [-> ->]. split; reflexivity.
  - destruct Hre as [-> | ->]; cbn; [reflexivity | apply andb_false_r].
  - destruct Hse as [-> | ->]; cbn; [reflexivity | apply andb_false_r].
Qed.

Lemma result_and_error_never_together_witness :
  error_shown (ui extraction_failed) = true
  /\ result_shown (ui extraction_failed) && error_shown (ui extraction_failed)
     = false.
Proof.
  split; [reflexivity|].
  exact (proj1 (proj2 (result_and_error_never_together
                         until_failure extraction_failed _ eq_refl))).
Defined.

(** X7: every extraction request a session sends carries the three views,
    in the order top, front, side, and every generation request carries a
    result that an earlier extraction of the session delivered. *)
Theorem requests_carry_three_views_and_delivered_results
        (evs : list Event) (p : Page) (sent : list Request) :
  browse evs start [] = Some (p, sent) ->
  Forall three_views_posted sent
  /\ forall r, In (PostConvertClean r) sent ->
               In (ExtractionSettled (Resolved r)) evs.
Proof.
  intros H.
  destruct (sound_history_browse evs [] _ _ _ _ sound_history_start H)
    as [_ Hv Hc].
  split; [exact Hv | exact Hc].
Qed.

Lemma requests_carry_three_views_and_delivered_results_witness :
  In (PostConvertClean extracted) generation_requests
  /\ Forall three_views_posted generation_requests
  /\ In (ExtractionSettled (Resolved extracted)) until_generation.
Proof.
  assert (Hsent : In (PostConvertClean extracted) generation_requests)
    by (vm_compute; right; left; reflexivity).
  split; [exact Hsent|].
  destruct (requests_carry_three_views_and_delivered_results
              until_generation generation_pending generation_requests)
    as [Hviews Hdelivered]; [vm_compute; reflexivity|].
  split; [exact Hviews | exact (Hdelivered extracted Hsent)].
Defined.



End ExtractorUiFacts.

(* ================================================================== *)
(** * The DimensionExtractor page and the App page *)
(* ================================================================== *)

Module AppComponentFacts.
Import Schema Extractor ExtractorUi.

Lemma shared_react (s : Extractor.State) (e : Event) :
  AppComponent.shared (react s e)
  = AppComponent.react (AppComponent.shared s) e
  /\ AppComponent.extraction_posts (requests (handler e s) s)
     = AppComponent.posted (AppComponent.handler e (AppComponent.shared s)).
Proof.
  destruct s as [fs ld res err pv vs ve gv].
  destruct e as [n sel | n loaded | | o | | o | ].
  - destruct sel as [[|f sel]|]; split; reflexivity.
  - unfold react, AppComponent.react, handler, AppComponent.handler, onload,
      AppComponent.onload, truthy.
    destruct loaded as [d|]; [destruct (String.eqb d "")|]; split; reflexivity.
  - split; reflexivity.
  - destruct o; split; reflexivity.
  - destruct res; split; reflexivity.
  - destruct o; split; reflexivity.
  - unfold react, handler, handleDownloadVba, requests, truthy. cbn [vbaScript].
    destruct vs as [script|]; [destruct (String.eqb script "")|]; split; reflexivity.
Qed.

(** X9: the DimensionExtractor page of Home.tsx extends the page of App.tsx.
    On the five cells the two components share (files, isLoading, result,
    error, previews) the same events lead to the same values, from any
    state, and the extraction forms posted on the way are the same: the
    script generation added to Home.tsx never touches what App.tsx
    showed. *)
Theorem extractor_page_extends_app_page (evs : list Event) :
  forall s : Extractor.State,
    AppComponent.shared (after evs s)
    = AppComponent.after evs (AppComponent.shared s)
    /\ AppComponent.extraction_posts (sent_during evs s)
       = AppComponent.posted_during evs (AppComponent.shared s).
Proof.
  induction evs as [|e evs IH]; intros s; [split; reflexivity|].
  destruct (shared_react s e) as [Hstate Hposts].
  destruct (IH (react s e)) as [IHstate IHposts].
  split.
  - change (AppComponent.shared (after evs (react s e))
            = AppComponent.after evs (AppComponent.react (AppComponent.shared s) e)).
    now rewrite IHstate, Hstate.
  - cbn [sent_during AppComponent.posted_during].
    unfold AppComponent.extraction_posts in *.
    rewrite flat_map_app, Hposts, IHposts, Hstate. reflexivity.
Qed.

End AppComponentFacts.

(* ================================================================== *)
(** * Properties of the AIRecommendation component *)
(* ================================================================== *)

Module RecommenderFacts.
Import Js Gemini GeminiFacts GeminiOutcomes Recommender.

Lemma substring_prefix (n : nat) (s : string) :
  prefix (substring 0 n s) s = true.
Proof.
  revert s. induction n as [|n IH]; intros s.
  - destruct s; reflexivity.
  - destruct s as [|c s]; [reflexivity|]. cbn.
    destruct (Ascii.ascii_dec c c) as [_|H]; [apply IH | now destruct H].
Qed.

Lemma substring_length (n : nat) (s : string) :
  String.length (substring 0 n s) = Nat.min n (String.length s).
Proof.
  revert s. induction n as [|n IH]; intros s.
  - destruct s; reflexivity.
  - destruct s as [|c s]; [reflexivity|]. cbn. now rewrite IH.
Qed.

Lemma substring_all (n : nat) (s : string) :
  (String.length s <= n)%nat -> substring 0 n s = s.
Proof.
  revert s. induction n as [|n IH]; intros s H.
  - destruct s; [reflexivity | cbn in H; lia].
  - destruct s as [|c s]; [reflexivity|]. cbn in *. rewrite IH; [reflexivity | lia].
Qed.

Lemma string_append_assoc (a b c : string) : (a ++ b) ++ c = a ++ b ++ c.
Proof. induction a as [|x a IH]; cbn; [reflexivity | now rewrite IH]. Qed.

(** X10: the description sent for a STEP file is the user's description (if
    it is not empty, followed by an empty line), the heading, and an excerpt
    of the file: a prefix of the file's text of at most 2000 characters,
    which is the whole text when that is no longer. *)
Theorem step_prompt_is_bounded (description stepContent : string) :
  exists excerpt,
    enhance description stepContent
    = (if String.eqb description "" then ""
       else description ++ newline ++ newline)
      ++ "STEP File Content (first 2000 chars):" ++ newline ++ excerpt
    /\ prefix excerpt stepContent = true
    /\ String.length excerpt = Nat.min 2000 (String.length stepContent)
    /\ ((String.length stepContent <= 2000)%nat -> excerpt = stepContent).
Proof.
  exists (substring 0 2000 stepContent).
  split; [|split; [apply substring_prefix
                  | split; [apply substring_length | apply substring_all]]].
  unfold enhance, step_section.
  destruct (String.eqb description ""); [reflexivity|].
  now rewrite !string_append_assoc.
Qed.

Section Platform.

Variable trim : string -> string.
Variable toLowerCase : string -> string.
Variable type_error_message : string.

Let handleAnalyze := handleAnalyze trim toLowerCase.
Let handler := handler trim toLowerCase type_error_message.
Let clickable := clickable trim.
Let step := step trim toLowerCase type_error_message.
Let browse := browse trim toLowerCase type_error_message.
Let well_formed := well_formed trim toLowerCase.

Lemma orderly_start : orderly toLowerCase start.
Proof.
  split; cbn.
  - discriminate.
  - split; [discriminate | intros H; now destruct H].
  - discriminate.
Qed.

Lemma orderly_step (e : Event) (p : Page) :
  orderly toLowerCase p -> clickable e p = true ->
  orderly toLowerCase (step e p) /\ Forall well_formed (calls (handler e p)).
Proof.
  intros [Hf Ha Ht] Hc.
  destruct p as [[fl d an err rc] aw].
  unfold step, Recommender.step, handler, Recommender.handler.
  cbn [ui awaiting] in *.
  destruct e as [sel | d' | | o | o | ].
  - (* FileChange *)
    unfold handleFileChange.
    destruct sel as [[|f sel]|]; cbn;
      try (split; [split; cbn; assumption | constructor]).
    destruct (is_image f || Recommender.is_step toLowerCase f) eqn:Hacc; cbn.
    + split; [split; cbn; try assumption | constructor].
      intros f' H. injection H as <-. exact Hacc.
    + split; [split; cbn; try assumption | constructor]. discriminate.
  - (* DescriptionChange *)
    cbn. split; [split; cbn; assumption | constructor].
  - (* Analyze *)
    unfold clickable, Recommender.clickable, analyze_disabled in Hc.
    cbn [ui isAnalyzing] in Hc.
    apply andb_true_iff in Hc as [_ Hc].
    apply negb_true_iff, orb_false_iff in Hc as [-> Hn].
    unfold Recommender.handleAnalyze. rewrite Hn.
    unfold nothing_to_analyze in Hn. cbn [description file] in Hn.
    destruct fl as [f|]; cbn [file].
    + pose proof (Hf f eq_refl) as Hacc.
      destruct (is_image f) eqn:Him.
      * cbn. split; [split; cbn; try assumption|].
        -- split; [discriminate | reflexivity].
        -- discriminate.
        -- constructor; [exact Him | constructor].
      * cbn [orb] in Hacc. rewrite Hacc. cbn.
        split; [split; cbn; try assumption | constructor].
        -- split; [discriminate | reflexivity].
        -- intros d0 f0 H. injection H as _ <-. now split.
    + cbn. rewrite andb_true_r in Hn.
      split; [split; cbn; try assumption|].
      * split; [discriminate | reflexivity].
      * discriminate.
      * constructor; [|constructor]. cbn. now apply String.eqb_neq.
  - (* TextSettled *)
    unfold clickable, Recommender.clickable in Hc. cbn [awaiting] in Hc.
    destruct aw as [|d0 f0|]; try discriminate Hc.
    destruct (Ht d0 f0 eq_refl) as [Him Hst].
    assert (Han : an = true) by (apply Ha; discriminate). subst an.
    destruct o as [content|message]; cbn.
    + split; [split; cbn; try assumption|].
      * split; [discriminate | reflexivity].
      * discriminate.
      * constructor; [|constructor]. cbn. now exists f0, d0, content.
    + split; [split; cbn; try assumption | constructor].
      * split; [discriminate | intros H; now destruct H].
      * discriminate.
  - (* Answered *)
    unfold clickable, Recommender.clickable in Hc. cbn [awaiting] in Hc.
    destruct aw as [|d0 f0|]; try discriminate Hc.
    unfold handleAnalyze_settled, catch.
    destruct o as [result|message]; [destruct (get result "data")|]; cbn;
      (split; [split; cbn; try assumption | constructor]);
      try discriminate;
      (split; [discriminate | intros H; now destruct H]).
  - (* TryAgain *)
    cbn. split; [split; cbn; assumption | constructor].
Qed.

Lemma orderly_browse (evs : list Event) :
  forall p sent p' sent',
    orderly toLowerCase p -> Forall well_formed sent ->
    browse evs p sent = Some (p', sent') ->
    orderly toLowerCase p' /\ Forall well_formed sent'.
Proof.
  induction evs as [|e evs IH]; intros p sent p' sent' Ho Hs H;
    cbn in H.
  - injection H as <- <-. now split.
  - fold clickable in H. destruct (clickable e p) eqn:Hc; [|discriminate H].
    destruct (orderly_step e p Ho Hc) as [Ho' Hcalls].
    apply (IH _ _ _ _ Ho') in H; [exact H|].
    apply Forall_app. now split.
Qed.

Lemma analyze_starts_once (p : Page) :
  orderly toLowerCase p -> clickable Analyze p = true ->
  (List.length (calls (handleAnalyze (ui p)))
   + List.length (reads (handleAnalyze (ui p))) = 1)%nat.
Proof.
  intros [Hf _ _] Hc. destruct p as [[fl d an err rc] aw].
  unfold clickable, Recommender.clickable, analyze_disabled in Hc.
  cbn [ui isAnalyzing] in *.
  apply andb_true_iff in Hc as [_ Hc].
  apply negb_true_iff, orb_false_iff in Hc as [_ Hn].
  unfold handleAnalyze, Recommender.handleAnalyze. rewrite Hn. cbn [file].
  destruct fl as [f|]; [|reflexivity].
  pose proof (Hf f eq_refl) as Hacc.
  destruct (is_image f); [reflexivity|].
  cbn [orb] in Hacc. rewrite Hacc. reflexivity.
Qed.

End Platform.

(** X11: in every session on the rendered page, each call into geminiApi.ts
    is well formed: the image function is called with an image; the text
    function is called either with the name of a STEP file that is not an
    image and a description that holds the excerpt of a file, or without a
    file name and with a description that is not blank.  The file the page
    holds is always an image or a STEP file, [isAnalyzing] is set exactly
    while the handler awaits something, and a click on the enabled analyze
    button starts exactly one read or call. *)
Theorem analysis_calls_are_well_formed
        (trim toLowerCase : string -> string) (type_error_message : string)
        (evs : list Event) (p : Page) (sent : list Call) :
  browse trim toLowerCase type_error_message evs start [] = Some (p, sent) ->
  Forall (well_formed trim toLowerCase) sent
  /\ (forall f, file (ui p) = Some f ->
                is_image f || is_step toLowerCase f = true)
  /\ (isAnalyzing (ui p) = true <-> awaiting p <> Idle)
  /\ (clickable trim Analyze p = true ->
      (List.length (calls (handleAnalyze trim toLowerCase (ui p)))
       + List.length (reads (handleAnalyze trim toLowerCase (ui p))) = 1)%nat).
Proof.
  intros H.
  destruct (orderly_browse trim toLowerCase type_error_message evs _ _ _ _
                           (orderly_start toLowerCase) (Forall_nil _) H)
    as [Ho Hs].
  split; [exact Hs|].
  split; [exact (file_accepted _ _ Ho)|].
  split; [exact (analyzing_awaits _ _ Ho)|].
  exact (analyze_starts_once trim toLowerCase p Ho).
Qed.

Lemma analysis_calls_are_well_formed_witness :
  Forall (well_formed (fun s => s) (fun s => s))
         [ CallText (enhance "steel bracket under a 500N vertical load"
                             "ISO-10303-21;")
                    (Some "bracket.step") ].
Proof.
  exact (proj1 (analysis_calls_are_well_formed
                  (fun s => s) (fun s => s) "" step_file_session
                  (mkPage (mkState (Some (mkFile "bracket.step" ""))
                                   "steel bracket under a 500N vertical load"
                                   true "" Null)
                          AwaitingAnswer)
                  _ eq_refl)).
Defined.

(** X12: for whatever [getAnalysisRecommendation] or
    [getAnalysisRecommendationWithImage] returns, [handleAnalyze] stores the
    [data] of it, which is truthy (the condition of the result section);
    [data.recommendations] has three items, and each of them has an
    [analysis_type] that is a key of [analysisInfo], so that the lookup of
    its title finds an entry, a [confidence] that is a finite number from 0
    to 1, and a path for "Launch Analysis" that is a declared route.  Of the
    [reasoning] only its truthiness is known; whether the card can show it
    is not part of the statement. *)
Theorem recommended_analyses_have_a_title_and_a_route
        (trim : string -> string)
        (match_code_block match_braces : string -> option string)
        (JSON_parse : string -> option value)
        (type_error_message : string)
        (apiKey base64Image : option string) (fetched : Fetch) (r : value) :
  getAnalysisRecommendation trim match_code_block match_braces JSON_parse
                            apiKey fetched = Returns r
  \/ getAnalysisRecommendationWithImage trim match_code_block match_braces
                                        JSON_parse apiKey base64Image fetched
     = Returns r ->
  exists data items,
    handleAnalyze_settled type_error_message (Fulfilled r)
    = [SetRecommendation data; SetIsAnalyzing false]
    /\ truthy data = true
    /\ get data "recommendations" = Some (Arr items)
    /\ List.length items = 3%nat
    /\ Forall (fun rec =>
                 (exists analysis_type title,
                     get rec "analysis_type" = Some (Str analysis_type) /\
                     info_of analysis_type analysisInfo = Some title /\
                     Router.declared (handleProceedToAnalysis analysis_type)
                     = true)
                 /\ valid_confidence rec
                 /\ truthy_reasoning rec)
              items.
Proof.
  intros H.
  assert (Hshape : validated_shape r).
  { destruct H as [H|H];
      [exact (getAnalysisRecommendation_returns _ _ _ _ _ _ _ H)
      | exact (getAnalysisRecommendationWithImage_returns _ _ _ _ _ _ _ _ H)]. }
  destruct Hshape as (_ & data & items & Hd & Hr & Hlen & Hall).
  exists data, items. unfold handleAnalyze_settled. rewrite Hd.
  split; [reflexivity|]. split.
  { destruct data as [| |b|n|s|l|props]; cbn in Hr |- *; try discriminate Hr;
      try reflexivity. }
  split; [exact Hr | split; [exact Hlen|]].
  eapply Forall_impl; [|exact Hall].
  intros rec ((t & Ht & Hin) & Hconfidence & Hreasoning).
  split; [|split; assumption].
  cbn in Hin.
  destruct Hin as [<- | [<- | [<- | [<- | []]]]];
    eexists; eexists; (split; [exact Ht | split; reflexivity]).
Qed.

Lemma recommended_analyses_have_a_title_and_a_route_witness :
  getAnalysisRecommendation (fun s => s) (fun _ => None) (fun s => Some s)
                            parse_example_text (Some "key")
                            (Resolves (api_response ranked_text))
  = Returns ranked
  /\ exists data items,
       handleAnalyze_settled "" (Fulfilled ranked)
       = [SetRecommendation data; SetIsAnalyzing false]
       /\ truthy data = true
       /\ get data "recommendations" = Some (Arr items)
       /\ List.length items = 3%nat
       /\ Forall (fun rec =>
                    (exists analysis_type title,
                        get rec "analysis_type" = Some (Str analysis_type) /\
                        info_of analysis_type analysisInfo = Some title /\
                        Router.declared (handleProceedToAnalysis analysis_type)
                        = true)
                    /\ valid_confidence rec
                    /\ truthy_reasoning rec)
                 items.
Proof.
  split; [vm_compute; reflexivity|].
  apply (recommended_analyses_have_a_title_and_a_route
           (fun s => s) (fun _ => None) (fun s => Some s) parse_example_text
           "" (Some "key") None (Resolves (api_response ranked_text)) ranked).
  left. vm_compute. reflexivity.
Defined.

End RecommenderFacts.
